(** * deferclient / deferstats: request interception, panic reporting and
      remote-command dispatch

    A shallow embedding of [src/deferclient/client.go] and
    [src/deferstats/http.go].  Go values are modelled as follows.

    - a Go [string] is a byte sequence: [string] of [ascii] bytes;
    - [int] and [int64] are [Z] (64-bit, wrap-around written where the code
      does arithmetic);
    - [map[K]V] is a [gmap K V]; reading an absent key gives the zero value;
    - a panic is an explicit result ([Panicked v]) and [recover] is the
      function that turns it back into a normal return;
    - [go f(...)] and every call into the outside world (logger, HTTP
      transport, the wrapped handler's writes) is recorded as an event. *)

From Stdlib Require Import ZArith Ascii String List Lia Bool.
From stdpp Require Import base option list gmap strings pretty fin_maps.

Local Open Scope Z_scope.

(** ** Results of code that may panic *)

Inductive result (P A : Type) : Type :=
| Returned (a : A)
| Panicked (v : P).
Arguments Returned {P A} a.
Arguments Panicked {P A} v.

(** ** Package [strings] of the Go standard library (the part used) *)

Module GoStrings.

Definition nl : ascii := "010"%char.
Definition tab : ascii := "009"%char.
Definition nul : ascii := "000"%char.
Definition backslash : ascii := "\"%char.

(** [strings.Replace(s, old, new, -1)] for a one-byte [old]: every
    occurrence is replaced, scanning left to right.  All three calls in
    [cleanTrace] have a one-byte [old] and [n = -1]. *)
Fixpoint Replace (s : string) (old : ascii) (new : string) : string :=
  match s with
  | EmptyString => EmptyString
  | String c r =>
      if Ascii.eqb c old then String.append new (Replace r old new)
      else String c (Replace r old new)
  end.

(** [strings.Join(a, sep)]. *)
Fixpoint Join (a : list string) (sep : string) : string :=
  match a with
  | [] => EmptyString
  | [x] => x
  | x :: rest => String.append x (String.append sep (Join rest sep))
  end.

Definition b (c : ascii) : N := N_of_ascii c.

(** [unicode.IsSpace] on the UTF-8 encoding of a rune.  One-byte runes:
    tab, newline, vertical tab, form feed, carriage return, space. *)
Definition isSpace1 (c : ascii) : bool :=
  ((9 <=? b c) && (b c <=? 13) || (b c =? 32))%N.

(** Two-byte runes: U+0085 (C2 85) and U+00A0 (C2 A0). *)
Definition isSpace2 (c1 c2 : ascii) : bool :=
  ((b c1 =? 194) && ((b c2 =? 133) || (b c2 =? 160)))%N.

(** Three-byte runes: U+1680 (E1 9A 80), U+2000..U+200A (E2 80 80..8A),
    U+2028, U+2029, U+202F (E2 80 A8/A9/AF), U+205F (E2 81 9F) and
    U+3000 (E3 80 80). *)
Definition isSpace3 (c1 c2 c3 : ascii) : bool :=
  ((b c1 =? 225) && (b c2 =? 154) && (b c3 =? 128)
   || (b c1 =? 226) && (b c2 =? 128)
      && ((128 <=? b c3) && (b c3 <=? 138)
          || (b c3 =? 168) || (b c3 =? 169) || (b c3 =? 175))
   || (b c1 =? 226) && (b c2 =? 129) && (b c3 =? 159)
   || (b c1 =? 227) && (b c2 =? 128) && (b c3 =? 128))%N.

Section Trim.
(** The three tests, on the bytes in the order in which the scan meets
    them: front to back for the left trim, back to front for the right
    trim. *)
Variable p1 : ascii -> bool.
Variable p2 : ascii -> ascii -> bool.
Variable p3 : ascii -> ascii -> ascii -> bool.

(** Number of bytes of the rune at the head when that rune is white
    space, [0] otherwise. *)
Definition spaceLen (s : list ascii) : nat :=
  match s with
  | c1 :: r1 =>
      if p1 c1 then 1%nat else
      match r1 with
      | c2 :: r2 =>
          if p2 c1 c2 then 2%nat else
          match r2 with
          | c3 :: _ => if p3 c1 c2 c3 then 3%nat else 0%nat
          | [] => 0%nat
          end
      | [] => 0%nat
      end
  | [] => 0%nat
  end.

(** Drop runes from the head while they are white space. *)
Fixpoint trim (s : list ascii) : list ascii :=
  match s with
  | c1 :: r1 =>
      if p1 c1 then trim r1 else
      match r1 with
      | c2 :: r2 =>
          if p2 c1 c2 then trim r2 else
          match r2 with
          | c3 :: r3 => if p3 c1 c2 c3 then trim r3 else s
          | [] => s
          end
      | [] => s
      end
  | [] => s
  end.

(** A sequence of bytes that is made of such runes and of nothing else. *)
Inductive runs : list ascii -> Prop :=
| runs_nil : runs []
| runs_1 c1 r : p1 c1 = true -> runs r -> runs (c1 :: r)
| runs_2 c1 c2 r : p2 c1 c2 = true -> runs r -> runs (c1 :: c2 :: r)
| runs_3 c1 c2 c3 r : p3 c1 c2 c3 = true -> runs r -> runs (c1 :: c2 :: c3 :: r).
End Trim.

(** White space: the encodings of white-space runes, one after the other. *)
Definition whitespace (s : list ascii) : Prop :=
  runs isSpace1 isSpace2 isSpace3 s.

(** [strings.TrimLeftFunc(s, unicode.IsSpace)] on the bytes of [s]. *)
Definition TrimLeftSpace (s : list ascii) : list ascii :=
  trim isSpace1 isSpace2 isSpace3 s.

(** [strings.TrimRightFunc(s, unicode.IsSpace)]: the same scan from the
    back ([utf8.DecodeLastRuneInString] finds the start byte of the last
    rune, so the last rune is white space exactly when the bytes at the end
    are one of the encodings above). *)
Definition isSpace2r (c1 c2 : ascii) : bool := isSpace2 c2 c1.
Definition isSpace3r (c1 c2 c3 : ascii) : bool := isSpace3 c3 c2 c1.

Definition TrimRightSpace (s : list ascii) : list ascii :=
  rev (trim isSpace1 isSpace2r isSpace3r (rev s)).

(** [strings.TrimSpace(s)] is
    [TrimRightFunc(TrimLeftFunc(s, unicode.IsSpace), unicode.IsSpace)]. *)
Definition TrimSpace (s : string) : string :=
  string_of_list_ascii
    (TrimRightSpace (TrimLeftSpace (list_ascii_of_string s))).

(** Does [s] begin, respectively end, with a white-space rune? *)
Definition leadingSpace (s : string) : bool :=
  negb (Nat.eqb (spaceLen isSpace1 isSpace2 isSpace3
                   (list_ascii_of_string s)) 0).
Definition trailingSpace (s : string) : bool :=
  negb (Nat.eqb (spaceLen isSpace1 isSpace2r isSpace3r
                   (rev (list_ascii_of_string s))) 0).

End GoStrings.

(** ** Package [deferclient]: [cleanTrace] *)

Module deferclient_trace.
Import GoStrings.

(** [cleanTrace], client.go lines 163-170. *)
Definition cleanTrace (body : string) : string :=
  let body := Replace body nl (String backslash "n") in
  let body := Replace body tab (String backslash "t") in
  let body := Replace body nul " " in
  let body := TrimSpace body in
  body.

(** The sanitisation as the specification words it: each byte is mapped on
    its own (newline and tab to their two-character escapes, NUL to a
    space), then the surrounding white space is trimmed. *)
Definition escape_byte (c : ascii) : string :=
  if Ascii.eqb c nl then String backslash "n"
  else if Ascii.eqb c tab then String backslash "t"
  else if Ascii.eqb c nul then " "
  else String c EmptyString.

Fixpoint escape_all (s : string) : string :=
  match s with
  | EmptyString => EmptyString
  | String c r => String.append (escape_byte c) (escape_all r)
  end.

Definition cleanTrace_spec (body : string) : string :=
  TrimSpace (escape_all body).

(** The input of the specification's example: a, newline, b, tab, c, NUL,
    d. *)
Definition sample_trace : string :=
  String "a" (String nl (String "b" (String tab
    (String "c" (String nul (String "d" EmptyString)))))).

End deferclient_trace.

(** ** Package [strconv] of the Go standard library (the part used) *)

Module strconv.

Inductive NumError := ErrSyntax | ErrRange.

Definition maxUint64 : Z := 2 ^ 64 - 1.
Definition maxInt64 : Z := 2 ^ 63 - 1.
Definition minInt64 : Z := - 2 ^ 63.

(** Conversions to [uint64] and [int64] (wrap-around). *)
Definition to_uint64 (z : Z) : Z := z mod 2 ^ 64.
Definition to_int64 (z : Z) : Z := (z + 2 ^ 63) mod 2 ^ 64 - 2 ^ 63.

(** Value of a decimal digit; [None] for any other byte (in base 10 a
    letter is a digit that is not below the base, also a syntax error). *)
Definition digit (c : ascii) : option Z :=
  let n := Z.of_N (N_of_ascii c) in
  if (48 <=? n) && (n <=? 57) then Some (n - 48) else None.

(** The loop of [ParseUint(s, 10, 64)]: it returns at the first byte that
    is not a digit (value 0, syntax error) or at the first digit that does
    not fit (value 2^64-1, range error), whichever it meets first. *)
Fixpoint ParseUint_loop (s : string) (n : Z) : Z * option NumError :=
  match s with
  | EmptyString => (n, None)
  | String c r =>
      match digit c with
      | None => (0, Some ErrSyntax)
      | Some d =>
          let cutoff := maxUint64 / 10 + 1 in
          if n >=? cutoff then (maxUint64, Some ErrRange)
          else
            let n := n * 10 in
            let n1 := to_uint64 (n + d) in
            if (n1 <? n) || (n1 >? maxUint64) then (maxUint64, Some ErrRange)
            else ParseUint_loop r n1
      end
  end.

Definition ParseUint (s : string) : Z * option NumError :=
  match s with
  | EmptyString => (0, Some ErrSyntax)
  | _ => ParseUint_loop s 0
  end.

(** [ParseInt(s, 10, 64)]. *)
Definition ParseInt (s : string) : Z * option NumError :=
  match s with
  | EmptyString => (0, Some ErrSyntax)
  | String c0 r0 =>
      let '(neg, s1) :=
        if Ascii.eqb c0 "+" then (false, r0)
        else if Ascii.eqb c0 "-" then (true, r0)
        else (false, s) in
      let '(un, err) := ParseUint s1 in
      match err with
      | Some ErrSyntax => (0, Some ErrSyntax)
      | _ =>
          let cutoff := 2 ^ 63 in
          if negb neg && (un >=? cutoff) then (cutoff - 1, Some ErrRange)
          else if neg && (un >? cutoff) then (- cutoff, Some ErrRange)
          else
            let n := to_int64 un in
            let n := if neg then to_int64 (- n) else n in
            (n, None)
      end
  end.

(** What the specification calls a numeric value: an optional sign
    followed by one or more decimal digits. *)
Fixpoint all_digits (s : string) : bool :=
  match s with
  | EmptyString => true
  | String c r => match digit c with Some _ => all_digits r | None => false end
  end.

Definition unsigned (s : string) : string :=
  match s with
  | EmptyString => EmptyString
  | String c0 r0 =>
      if Ascii.eqb c0 "+" || Ascii.eqb c0 "-" then r0 else s
  end.

Definition numeric (s : string) : bool :=
  match unsigned s with
  | EmptyString => false
  | _ => all_digits (unsigned s)
  end.

(** The number the leading run of digits of [s] denotes, continuing from
    [n] (unbounded). *)
Fixpoint digits_value (s : string) (n : Z) : Z :=
  match s with
  | EmptyString => n
  | String c r =>
      match digit c with
      | Some d => digits_value r (n * 10 + d)
      | None => n
      end
  end.

(** Does [s] carry a minus sign? *)
Definition negative (s : string) : bool :=
  match s with
  | String c _ => Ascii.eqb c "-"
  | EmptyString => false
  end.

(** [FormatInt(i, 10)]. *)
Definition FormatInt (i : Z) : string := pretty i.

End strconv.

(** ** JSON objects handed to the encoder

    [encoding/json] is an external collaborator; what the source decides (the
    struct tags: field names and [omitempty]) is which fields the encoder is
    given. *)

Inductive jvalue : Type :=
| JString (s : string)
| JNumber (n : Z).

Definition jobject : Type := list (string * jvalue).

Fixpoint field (k : string) (o : jobject) : option jvalue :=
  match o with
  | [] => None
  | (k', v) :: rest => if String.eqb k' k then Some v else field k rest
  end.

Definition has_field (k : string) (o : jobject) : bool :=
  match field k o with Some _ => true | None => false end.

(** ** The runtime and the external collaborators

    [V] is the type of the values a panic carries (Go's [interface{}]). *)

Class Runtime (V : Type) := {
  (** [fmt.Sprintf("%q", v)] and [fmt.Sprintf("%v", v)] *)
  Sprintf_q : V -> string;
  Sprintf_v : V -> string;
  (** the value the Go runtime panics with (nil dereference, index out of
      range) *)
  runtimeError : string -> V;
  (** [json.Marshal] on the object the struct tags select *)
  json_encode : jobject -> string;
  (** the order in which [range] visits a map: unspecified, but every entry
      is met exactly once *)
  range_order : gmap string (list string) -> list (string * list string);
  range_order_perm : forall m, range_order m ≡ₚ map_to_list m;
  (** [http.NewRequest]: does the URL parse? *)
  url_parses : string -> bool;
}.

(** ** Package [deferclient] *)

Module deferclient.
Import GoStrings deferclient_trace.

Definition ApiVersion : string := "v1.17".
Definition ApiBase : string := String.append "https://api.deferpanic.com/" ApiVersion.
Definition errorsUrl : string := String.append ApiBase "/panics/create".

(** Modelled from the spec: the type of a command ("enum: trace /
    cpu-profile / mem-profile", with an explicit unknown case), which
    client.go switches on ([command.Type], [CommandTypeTrace], ...) and
    which command.go does not declare. *)
Inductive CommandType :=
| CommandTypeTrace
| CommandTypeCPUProfile
| CommandTypeMemProfile
| CommandTypeUnknown (raw : string).

(** [Command], command.go, with the [Type] field that client.go reads. *)
Record Command := {
  Id : Z;
  Type_ : CommandType;
  Requested : bool;
  Executed : bool;
}.

(** [Agent] is declared in a file that is not among the sources; [Postit]
    reads its [Name] only. *)
Record Agent := { Name : string }.

(** [Response]: the decoded reply of the collector. *)
Record Response := {
  RAgent : Agent;
  Commands : list Command;
}.

(** [DeferJSON] *)
Record DeferJSON := {
  Msg : string;
  BackTrace : string;
  SpanId : Z;
}.

(** The fields [json.Marshal] is given for a [DeferJSON]: [ErrorName],
    [Body], and [SpanId] under [omitempty] (left out when it is the zero
    value). *)
Definition DeferJSON_fields (dj : DeferJSON) : jobject :=
  [("ErrorName"%string, JString (Msg dj)); ("Body"%string, JString (BackTrace dj))]
  ++ (if SpanId dj =? 0 then [] else [("SpanId"%string, JNumber (SpanId dj))]).

(** An outbound request as [Postit] builds it. *)
Record Request := {
  Method : string;
  URL : string;
  ReqBody : string;
  ReqHeader : list (string * string);
}.

(** What the transport hands back: [resp.StatusCode] and what
    [ioutil.ReadAll(resp.Body)] gives. *)
Record HttpResponse := {
  StatusCode : Z;
  Body : string + string;
}.

(** The capture tasks, external collaborators launched with [go]. *)
Inductive task :=
| MakeTrace (id : Z) (agent : Agent)
| MakeCPUProfile (id : Z) (agent : Agent)
| MakeMemProfile (id : Z) (agent : Agent)
| ShipTraceTask (exception errorstr : string) (spanId : Z).

Inductive event :=
| Log (msg : string)
| Println (msg : string)
| Do (req : Request)
| BodyClose
| Go (t : task).

(** [DeferPanicClient].  [HttpClient] is the transport ([HttpClient.Do]);
    [Agent_] is the [*Agent], possibly nil. *)
Record DeferPanicClient := {
  Token : string;
  UserAgent : string;
  Environment : string;
  AppGroup : string;
  Agent_ : option Agent;
  NoPost : bool;
  PrintPanics : bool;
  HttpClient : Request -> string + HttpResponse;
  RunningCommands : gmap Z bool;
}.

Definition set_RunningCommands (c : DeferPanicClient) (rc : gmap Z bool) :=
  {| Token := Token c; UserAgent := UserAgent c; Environment := Environment c;
     AppGroup := AppGroup c; Agent_ := Agent_ c; NoPost := NoPost c;
     PrintPanics := PrintPanics c; HttpClient := HttpClient c;
     RunningCommands := rc |}.

(** The task a command of a known type launches (the [switch] of
    lines 257-266). *)
Definition launch (command : Command) (agent : Agent) : event :=
  match Type_ command with
  | CommandTypeTrace => Go (MakeTrace (Id command) agent)
  | CommandTypeCPUProfile => Go (MakeCPUProfile (Id command) agent)
  | CommandTypeMemProfile => Go (MakeMemProfile (Id command) agent)
  | CommandTypeUnknown raw => Log (String.append "Unknown command " raw)
  end.

Definition is_Go (e : event) : bool :=
  match e with Go _ => true | _ => false end.

(** The command id a launched capture task was given. *)
Definition launched_id (e : event) : option Z :=
  match e with
  | Go (MakeTrace id _) | Go (MakeCPUProfile id _) | Go (MakeMemProfile id _) =>
      Some id
  | _ => None
  end.

Definition launches_of (id : Z) (evs : list event) : nat :=
  length (filter (λ e, launched_id e = Some id) evs).

Definition sent_bodies (evs : list event) : list string :=
  omap (λ e, match e with Do req => Some (ReqBody req) | _ => None end) evs.

(** The request of lines 212-219: [http.NewRequest] and the six
    [req.Header.Set] calls, in order. *)
Definition newRequest (c : DeferPanicClient) (b url : string) (agent : Agent)
  : Request :=
  {| Method := "POST"; URL := url; ReqBody := b;
     ReqHeader :=
       [("X-deferid", Token c); ("Content-Type", "application/json");
        ("User-Agent", UserAgent c); ("X-dpenv", Environment c);
        ("X-dpgroup", AppGroup c); ("X-dpagentid", Name agent)]%string |}.

(** No other goroutine touches the registry. *)
Definition idle : nat -> gmap Z bool -> gmap Z bool := λ _ rc, rc.

(** The registry after the writes of the other goroutines alone, over [n]
    acquisitions of the lock starting with the [i]-th. *)
Fixpoint registry_after (others : nat -> gmap Z bool -> gmap Z bool)
    (i n : nat) (rc : gmap Z bool) : gmap Z bool :=
  match n with
  | O => rc
  | S n => registry_after others (S i) n (others i rc)
  end.

(** What the loop launches when each command is judged on the registry as
    it stands at its own read: the read for the [j]-th command comes after
    the writes the other goroutines made before the [j]-th acquisition of the
    lock, counted from the [i]-th. *)
Definition launched_on_read (others : nat -> gmap Z bool -> gmap Z bool)
    (i : nat) (agent : Agent) (rc : gmap Z bool) (commands : list Command)
  : list event :=
  concat (imap (λ j command,
                  if default false (registry_after others i (S j) rc !! Id command)
                  then [] else [launch command agent])
            commands).

Section Postit.
Context {V : Type} {RT : Runtime V}.

(** What the other goroutines (the capture tasks already launched among
    them) do to [RunningCommands] before the loop takes the lock for the
    [i]-th time.  [Postit] holds the lock only for the read. *)
Variable others : nat -> gmap Z bool -> gmap Z bool.

(** [json.Unmarshal(body, &response)] *)
Variable Unmarshal : string -> string + Response.

(** The loop of lines 252-268.  [c.RunningCommands[command.Id]] is the
    zero value [false] for an absent key. *)
Fixpoint dispatch (i : nat) (commands : list Command) (agent : Agent)
    (rc : gmap Z bool) : list event * gmap Z bool :=
  match commands with
  | [] => ([], rc)
  | command :: rest =>
      let rc := others i rc in
      let running := default false (rc !! Id command) in
      let evs := if running then [] else [launch command agent] in
      let '(evs', rc') := dispatch (S i) rest agent rc in
      (evs ++ evs', rc')
  end.

Definition status_log (code : Z) : list event :=
  if code =? 401 then [Log "wrong or invalid API token"]
  else if code =? 429 then [Log "too many requests - you are being rate limited"]
  else if code =? 503 then [Log "service not available"]
  else [].

(** The body of [Postit] after the [NoPost] test, up to the point where
    the deferred calls run. *)
Definition Postit_body (c : DeferPanicClient) (b url : string)
    (analyseResponse : bool)
  : list event * result V unit * gmap Z bool :=
  let rc := RunningCommands c in
  if negb (url_parses url) then
    (* [req] is nil: [req.Header.Set] dereferences it *)
    ([], Panicked (runtimeError "invalid memory address or nil pointer dereference"), rc)
  else
    match Agent_ c with
    | None =>
        ([], Panicked (runtimeError "invalid memory address or nil pointer dereference"), rc)
    | Some agent =>
        let req := newRequest c b url agent in
        match HttpClient c req with
        | inl err => ([Do req; Log err], Returned (), rc)
        | inr resp =>
            let evs := Do req :: status_log (StatusCode resp) in
            if analyseResponse then
              match Body resp with
              | inl err => (evs ++ [Log err; BodyClose], Returned (), rc)
              | inr body =>
                  match Unmarshal body with
                  | inl err => (evs ++ [Log err; BodyClose], Returned (), rc)
                  | inr response =>
                      let '(devs, rc') :=
                        dispatch 0 (Commands response) (RAgent response) rc in
                      (evs ++ devs ++ [BodyClose], Returned (), rc')
                  end
              end
            else (evs ++ [BodyClose], Returned (), rc)
        end
    end.

(** [Postit], lines 200-270: the deferred function recovers whatever the
    body panicked with and logs it. *)
Definition Postit (c : DeferPanicClient) (b url : string)
    (analyseResponse : bool) : list event * result V unit * DeferPanicClient :=
  if NoPost c then ([], Returned (), c)
  else
    let '(evs, r, rc) := Postit_body c b url analyseResponse in
    match r with
    | Returned _ => (evs, Returned (), set_RunningCommands c rc)
    | Panicked rec =>
        (evs ++ [Log (Sprintf_q rec)], Returned (), set_RunningCommands c rc)
    end.

(** The report [ShipTrace] builds (lines 179-188). *)
Definition report (exception errorstr : string) (spanId : Z) : DeferJSON :=
  let body := cleanTrace exception in
  let dj := {| Msg := errorstr; BackTrace := body; SpanId := 0 |} in
  if spanId >? 0
  then {| Msg := Msg dj; BackTrace := BackTrace dj; SpanId := spanId |}
  else dj.

(** [ShipTrace], lines 174-196.  [json.Marshal] cannot fail on a
    [DeferJSON]. *)
Definition ShipTrace (c : DeferPanicClient) (exception errorstr : string)
    (spanId : Z) : list event * result V unit * DeferPanicClient :=
  if NoPost c then ([], Returned (), c)
  else
    let dj := report exception errorstr spanId in
    let b := json_encode (DeferJSON_fields dj) in
    Postit c b errorsUrl false.

(** [prep], lines 137-159, on its asynchronous path ([Prep]): [stack] is
    what [debug.Stack()] returns and [trace] what [backTrace()] (declared
    in a file that is not among the sources) returns. *)
Definition Prep (c : DeferPanicClient) (stack trace : string) (err : V)
    (spanId : Z) : list event :=
  let errorMsg := Sprintf_q err in
  let errorMsg := Replace errorMsg "034"%char EmptyString in
  (if PrintPanics c then [Println stack] else [])
  ++ [Go (ShipTraceTask trace errorMsg spanId)].

(** [prep], lines 137-159, with both paths.  On the synchronous path the
    caller waits on [done] until the goroutine has run [ShipTrace] to its
    end: the events of that [ShipTrace] lie before the return of [prep]. *)
Definition prep (c : DeferPanicClient) (stack trace : string) (err : V)
    (spanId : Z) (syncShipTrace : bool) : list event * DeferPanicClient :=
  let errorMsg := Sprintf_q err in
  let errorMsg := Replace errorMsg "034"%char EmptyString in
  let printed := if PrintPanics c then [Println stack] else [] in
  let body := trace in
  if syncShipTrace then
    let '(evs, _, c') := ShipTrace c body errorMsg spanId in
    (printed ++ evs, c')
  else (printed ++ [Go (ShipTraceTask body errorMsg spanId)], c).

(** [PrepSync], lines 131-133. *)
Definition PrepSync (c : DeferPanicClient) (stack trace : string) (err : V)
    (spanId : Z) : list event * DeferPanicClient :=
  prep c stack trace err spanId true.

(** [Persist], lines 104-108, as a deferred call: [rec] is what [recover()]
    returns, [None] when no panic is in flight.  The last component is the
    panic that leaves the function. *)
Definition Persist (c : DeferPanicClient) (stack trace : string)
    (rec : option V) : list event * DeferPanicClient * option V :=
  match rec with
  | Some err =>
      let '(evs, c') := prep c stack trace err 0 false in (evs, c', None)
  | None => ([], c, None)
  end.

(** [PersistRepanic], lines 113-118. *)
Definition PersistRepanic (c : DeferPanicClient) (stack trace : string)
    (rec : option V) : list event * DeferPanicClient * option V :=
  match rec with
  | Some err =>
      let '(evs, c') := PrepSync c stack trace err 0 in (evs, c', Some err)
  | None => ([], c, None)
  end.

End Postit.

(** [NewDeferPanicClient], lines 85-99.  [a] is what [NewAgent()] returns
    and [transport] the behaviour of the fresh [http.Client]; the fields the
    literal leaves out have their zero values. *)
Definition NewDeferPanicClient (token : string) (a : Agent)
    (transport : Request -> string + HttpResponse) : DeferPanicClient :=
  {| Token := token;
     UserAgent := String.append "deferclient " ApiVersion;
     Environment := EmptyString;
     AppGroup := EmptyString;
     Agent_ := Some a;
     NoPost := false;
     PrintPanics := false;
     HttpClient := transport;
     RunningCommands := ∅ |}.

(** How many times the body of a response was closed. *)
Definition is_BodyClose (e : event) : bool :=
  match e with BodyClose => true | _ => false end.

Definition closes (evs : list event) : nat :=
  length (filter (λ e, is_BodyClose e = true) evs).

End deferclient.

(** ** Concrete instances, for the examples

    Panic values are strings; the writer records the calls made on it. *)

Module samples.

Definition quote : ascii := "034"%char.

Definition render_value (v : jvalue) : string :=
  match v with
  | JString s => String quote (String.append s (String quote EmptyString))
  | JNumber n => pretty n
  end.

Definition render_field (kv : string * jvalue) : string :=
  String quote (String.append kv.1
    (String quote (String ":" (render_value kv.2)))).

Definition render (o : jobject) : string :=
  String "{" (String.append (GoStrings.Join (map render_field o) ",") "}").

(** A URL that begins with a colon has no scheme: [url.Parse], and with it
    [http.NewRequest], fails on it ("missing protocol scheme").  The empty
    URL parses. *)
Definition missing_scheme (u : string) : bool :=
  match u with
  | String c _ => Ascii.eqb c ":"
  | EmptyString => false
  end.

(** Panic values that are strings.  The examples use texts and URLs for
    which [%q] and the JSON encoder have nothing to escape and whose only
    possible defect is a leading colon. *)
#[export] Instance string_runtime : Runtime string := {|
  Sprintf_q v := String quote (String.append v (String quote EmptyString));
  Sprintf_v v := v;
  runtimeError msg := String.append "runtime error: " msg;
  json_encode := render;
  url_parses u := negb (missing_scheme u);
  range_order := map_to_list;
  range_order_perm m := Permutation_refl (map_to_list m);
|}.

Definition agent0 : deferclient.Agent := {| deferclient.Name := "agent-1" |}.

Definition trace7 : deferclient.Command :=
  {| deferclient.Id := 7; deferclient.Type_ := deferclient.CommandTypeTrace;
     deferclient.Requested := true; deferclient.Executed := false |}.

(** A collector that answers every request with status 200 and the body
    [reply]. *)
Definition collector (req : deferclient.Request) : string + deferclient.HttpResponse :=
  inr {| deferclient.StatusCode := 200; deferclient.Body := inr "reply"%string |}.

Definition client0 : deferclient.DeferPanicClient :=
  {| deferclient.Token := "token"; deferclient.UserAgent := "deferclient v1.17";
     deferclient.Environment := "test"; deferclient.AppGroup := "group";
     deferclient.Agent_ := Some agent0; deferclient.NoPost := false;
     deferclient.PrintPanics := false; deferclient.HttpClient := collector;
     deferclient.RunningCommands := ∅ |}.

Definition client_nopost : deferclient.DeferPanicClient :=
  {| deferclient.Token := "token"; deferclient.UserAgent := "deferclient v1.17";
     deferclient.Environment := "test"; deferclient.AppGroup := "group";
     deferclient.Agent_ := Some agent0; deferclient.NoPost := true;
     deferclient.PrintPanics := false; deferclient.HttpClient := collector;
     deferclient.RunningCommands := {[ 7 := true ]} |}.

(** A client whose [Agent] is nil. *)
Definition client_no_agent : deferclient.DeferPanicClient :=
  {| deferclient.Token := "token"; deferclient.UserAgent := "deferclient v1.17";
     deferclient.Environment := "test"; deferclient.AppGroup := "group";
     deferclient.Agent_ := None; deferclient.NoPost := false;
     deferclient.PrintPanics := false; deferclient.HttpClient := collector;
     deferclient.RunningCommands := ∅ |}.

(** A collector that cannot be reached. *)
Definition unreachable (req : deferclient.Request) : string + deferclient.HttpResponse :=
  inl "dial tcp: connection refused"%string.

Definition client_down : deferclient.DeferPanicClient :=
  {| deferclient.Token := "token"; deferclient.UserAgent := "deferclient v1.17";
     deferclient.Environment := "test"; deferclient.AppGroup := "group";
     deferclient.Agent_ := Some agent0; deferclient.NoPost := false;
     deferclient.PrintPanics := false; deferclient.HttpClient := unreachable;
     deferclient.RunningCommands := ∅ |}.

(** A decoder that yields the same command id twice, and one that fails. *)
Definition decode_twice (body : string) : string + deferclient.Response :=
  inr {| deferclient.RAgent := agent0; deferclient.Commands := [trace7; trace7] |}.

Definition decode_fails (body : string) : string + deferclient.Response :=
  inl "invalid character 'r' looking for beginning of value"%string.

End samples.

(** ** Package [deferstats] *)

Module deferstats.
Import GoStrings.

Definition StatusOK : Z := 200.
Definition StatusInternalServerError : Z := 500.

(** [http.Header] *)
Abbreviation Header := (gmap string (list string)).

(** [DeferHTTP] *)
Record DeferHTTP := {
  Path : string;
  Method : string;
  StatusCode : Z;
  Time : Z;
  SpanId : Z;
  ParentSpanId : Z;
  IsProblem : bool;
  Headers : gmap string string;
}.

(** [deferHTTPList]: the slice behind the lock. *)
Definition deferHTTPList : Type := list DeferHTTP.
Definition Add (d : deferHTTPList) (item : DeferHTTP) : deferHTTPList := d ++ [item].
Definition List (d : deferHTTPList) : list DeferHTTP := d.
Definition Reset (d : deferHTTPList) : deferHTTPList := [].

(** The package-level state: [curlist], [LatencyThreshold], and the calls
    made to [rpms.Inc] ([rpms] is declared in a file that is not among the
    sources). *)
Record Globals := {
  curlist : deferHTTPList;
  LatencyThreshold : Z;
  rpms : list Z;
}.

(** The interface [http.ResponseWriter], over the state [W] of the value
    behind it.  [Write] returns the byte count and the error. *)
Class ResponseWriter (W : Type) := {
  GetHeader : W -> Header;
  Write : W -> string -> W * (Z * option string);
  WriteHeader : W -> Z -> W;
}.

Section Tracer.
Context {W : Type} {RW : ResponseWriter W}.

(** [ResponseTracer] *)
Record ResponseTracer := {
  w : W;
  status : Z;
  size : Z;
  TSpanId : Z;
  TParentSpanId : Z;
}.

(** [&ResponseTracer{w: w}] *)
Definition newTracer (w0 : W) : ResponseTracer :=
  {| w := w0; status := 0; size := 0; TSpanId := 0; TParentSpanId := 0 |}.

Definition Tracer_Header (l : ResponseTracer) : Header := GetHeader (w l).

Definition Tracer_Write (l : ResponseTracer) (b : string)
  : ResponseTracer * (Z * option string) :=
  let status' := if status l =? 0 then StatusOK else status l in
  let '(w', (sz, err)) := Write (w l) b in
  ({| w := w'; status := status'; size := strconv.to_int64 (size l + sz);
      TSpanId := TSpanId l; TParentSpanId := TParentSpanId l |},
   (sz, err)).

Definition Tracer_WriteHeader (l : ResponseTracer) (s : Z) : ResponseTracer :=
  {| w := WriteHeader (w l) s; status := s; size := size l;
     TSpanId := TSpanId l; TParentSpanId := TParentSpanId l |}.

Definition Status (l : ResponseTracer) : Z := status l.
Definition Size (l : ResponseTracer) : Z := size l.

(** [*ResponseTracer] implements [http.ResponseWriter]. *)
#[export] Instance Tracer_ResponseWriter : ResponseWriter ResponseTracer := {|
  GetHeader := Tracer_Header;
  Write := Tracer_Write;
  WriteHeader := Tracer_WriteHeader;
|}.

(** A value of interface type [http.ResponseWriter], by its dynamic
    type: a [*ResponseTracer] (possibly a nil pointer), some other
    writer, or the nil interface. *)
Inductive writer_value :=
| IsTracer (p : option ResponseTracer)
| OtherWriter (w0 : W)
| NilWriter.

Definition is_tracer (r : writer_value) : bool :=
  match r with IsTracer _ => true | _ => false end.

Context {V : Type} {RT : Runtime V}.

(** [GetSpanId], lines 125-128: an unchecked type assertion, then a
    field read through the pointer. *)
Definition GetSpanId (r : writer_value) : result V Z :=
  match r with
  | IsTracer (Some mPtr) => Returned (TSpanId mPtr)
  | IsTracer None =>
      Panicked (runtimeError "invalid memory address or nil pointer dereference")
  | OtherWriter _ | NilWriter =>
      Panicked (runtimeError "interface conversion: http.ResponseWriter is not *deferstats.ResponseTracer")
  end.

(** [GetSpanIdString], lines 120-122. *)
Definition GetSpanIdString (r : writer_value) : result V string :=
  match GetSpanId r with
  | Returned id => Returned (strconv.FormatInt id)
  | Panicked v => Panicked v
  end.

(** [WritePanicResponse], lines 85-88 (the default value of the
    variable). *)
Definition WritePanicResponse (w0 : W) (errMsg : string) : W :=
  let w1 := WriteHeader w0 StatusInternalServerError in
  (Write w1 errMsg).1.

(** An inbound request: what the interceptor reads of it. *)
Record Request := {
  URL_Path : string;
  RMethod : string;
  RHeader : Header;
}.

(** [time.Time.Sub] on instants in nanoseconds: the difference,
    saturated to the range of [time.Duration]. *)
Definition Sub (t u : Z) : Z :=
  Z.max strconv.minInt64 (Z.min strconv.maxInt64 (t - u)).

(** [appendHTTP], lines 91-116; [endTime] is what [time.Now()] returns at
    line 93.  Go's [/] truncates toward zero; [int] is 64 bits wide, so the
    conversion of the quotient changes nothing. *)
Definition appendHTTP (g : Globals) (endTime startTime : Z) (path method : string)
    (status_code span_id parent_span_id : Z) (isProblem : bool)
    (headers : gmap string string) : Globals :=
  let t := Z.quot (Sub endTime startTime) 1000000 in
  let rpms' := rpms g ++ [status_code] in
  if (t >? LatencyThreshold g) || isProblem then
    let dh := {| Path := path; Method := method; Time := t;
                 StatusCode := status_code; SpanId := span_id;
                 ParentSpanId := parent_span_id; IsProblem := isProblem;
                 Headers := headers |} in
    {| curlist := Add (curlist g) dh;
       LatencyThreshold := LatencyThreshold g; rpms := rpms' |}
  else
    {| curlist := curlist g;
       LatencyThreshold := LatencyThreshold g; rpms := rpms' |}.

(** [AfterRequest], lines 218-222. *)
Definition AfterRequest (g : Globals) (endTime startTime : Z)
    (tracer : ResponseTracer) (r : Request) (headers : gmap string string)
    (status_code : Z) (isproblem : bool) : Globals :=
  appendHTTP g endTime startTime (URL_Path r) (RMethod r) status_code
    (TSpanId tracer) (TParentSpanId tracer) isproblem headers.

(** The loop of lines 206-213 over the entries in the order [range]
    gives them; [v[0]] panics on an empty slice. *)
Fixpoint BeforeRequest_range (kvs : list (string * list string))
    (headers : gmap string string) (parent : Z)
  : result V (gmap string string * Z) :=
  match kvs with
  | [] => Returned (headers, parent)
  | (k, v) :: rest =>
      let headers := <[k := Join v ","]> headers in
      if String.eqb k "X-Dpparentspanid" then
        match v with
        | [] => Panicked (runtimeError "index out of range [0] with length 0")
        | v0 :: _ => BeforeRequest_range rest headers (strconv.ParseInt v0).1
        end
      else BeforeRequest_range rest headers parent
  end.

(** What one turn of that loop does to the flat map. *)
Definition put (h : gmap string string) (kv : string * list string)
  : gmap string string := <[kv.1 := Join kv.2 ","]> h.

(** [BeforeRequest], lines 195-216; [now] is what [time.Now()] returns
    and [id] what [newId()] draws. *)
Definition BeforeRequest (now id : Z) (w0 : W) (r : Request)
  : result V (Z * ResponseTracer * gmap string string) :=
  let startTime := now in
  let tracer := newTracer w0 in
  let tracer := {| w := w tracer; status := status tracer; size := size tracer;
                   TSpanId := id; TParentSpanId := TParentSpanId tracer |} in
  match BeforeRequest_range (range_order (RHeader r)) ∅ (TParentSpanId tracer) with
  | Panicked v => Panicked v
  | Returned (headers, parent) =>
      Returned (startTime,
                {| w := w tracer; status := status tracer; size := size tracer;
                   TSpanId := TSpanId tracer; TParentSpanId := parent |},
                headers)
  end.

(** What a wrapped handler does with the writer it is given: a finite
    sequence of calls of the interface, each continued with what the call
    returned, ended by a return or a panic.  These are the handlers that
    use the writer through the three methods of [http.ResponseWriter] only:
    a handler that looks at the dynamic type of the writer (a type
    assertion, a call of [GetSpanId]) is not among them. *)
Inductive Handler :=
| HReturn
| HPanic (v : V)
| HHeader (k : Header -> Handler)
| HWrite (b : string) (k : Z * option string -> Handler)
| HWriteHeader (s : Z) (k : Handler).

(** [f.ServeHTTP(tracer, r)]: the tracer is a pointer, its final state is
    what the interceptor sees afterwards, also after a panic. *)
Fixpoint ServeHTTP (f : Handler) (tracer : ResponseTracer)
  : option V * ResponseTracer :=
  match f with
  | HReturn => (None, tracer)
  | HPanic v => (Some v, tracer)
  | HHeader k => ServeHTTP (k (Tracer_Header tracer)) tracer
  | HWrite b k =>
      let '(tracer', res) := Tracer_Write tracer b in
      ServeHTTP (k res) tracer'
  | HWriteHeader s k => ServeHTTP k (Tracer_WriteHeader tracer s)
  end.

(** The clock readings and draws of one request: [time.Now()] in
    [BeforeRequest] and in [appendHTTP], the span id drawn, and what
    [debug.Stack()] and [backTrace()] return in [Prep]. *)
Record Ambient := {
  start_now : Z;
  end_now : Z;
  new_id : Z;
  stack : string;
  trace : string;
}.

(** The function [HTTPHandler] returns, lines 176-192.  [wpr] is the
    value of the variable [WritePanicResponse]; [base] is
    [c.BaseClient].  The original writer [w] and [tracer.w] are the
    same object: after the handler, its state is the one the tracer
    holds.  [BeforeRequest] runs before the [defer]: a panic there is not
    recovered.  [recover()] returns the value of the panic, which is never
    nil (a [panic(nil)] reaches it as a [*runtime.PanicNilError]). *)
Definition HTTPHandler (base : deferclient.DeferPanicClient)
    (wpr : W -> string -> W) (f : Request -> Handler) (a : Ambient)
    (g : Globals) (w0 : W) (r : Request)
  : result V (Globals * W * list deferclient.event) :=
  match BeforeRequest (start_now a) (new_id a) w0 r with
  | Panicked v => Panicked v
  | Returned (startTime, tracer, headers) =>
      match ServeHTTP (f r) tracer with
      | (Some err, tracer) =>
          let evs := deferclient.Prep base (stack a) (trace a) err (TSpanId tracer) in
          let g := AfterRequest g (end_now a) startTime tracer r headers 500 true in
          let errorMsg := Sprintf_v err in
          let w1 := wpr (w tracer) errorMsg in
          Returned (g, w1, evs)
      | (None, tracer) =>
          let g := AfterRequest g (end_now a) startTime tracer r headers
                     (Status tracer) false in
          Returned (g, w tracer, [])
      end
  end.

End Tracer.
Arguments ResponseTracer W : clear implicits.
Arguments writer_value W : clear implicits.
Arguments Handler V : clear implicits.

(** A call a handler made on its writer, with what [Write] returned. *)
Inductive op :=
| OpWrite (b : string) (n : Z) (err : option string)
| OpWriteHeader (s : Z).

Section Serve.
Context {V : Type} {W : Type} {RW : ResponseWriter W}.

(** [f.ServeHTTP(w, r)] for a writer of any type behind the interface,
    with the calls made on it. *)
Fixpoint Serve (f : Handler V) (w0 : W) : option V * W * list op :=
  match f with
  | HReturn => (None, w0, [])
  | HPanic v => (Some v, w0, [])
  | HHeader k => Serve (k (GetHeader w0)) w0
  | HWrite b k =>
      let '(w1, res) := Write w0 b in
      let '(o, w2, ops) := Serve (k res) w1 in
      (o, w2, OpWrite b res.1 res.2 :: ops)
  | HWriteHeader s k =>
      let '(o, w2, ops) := Serve k (WriteHeader w0 s) in
      (o, w2, OpWriteHeader s :: ops)
  end.
End Serve.

(** The byte counts the writes returned, added up. *)
Definition written (ops : list op) : Z :=
  foldr (λ o acc, match o with OpWrite _ n _ => n + acc | OpWriteHeader _ => acc end)
    0 ops.

Definition is_OpWriteHeader (o : op) : bool :=
  match o with OpWriteHeader _ => true | OpWrite _ _ _ => false end.

(** What one call does to the status a tracer records (lines 140-144 and
    153). *)
Definition step_status (st : Z) (o : op) : Z :=
  match o with
  | OpWrite _ _ _ => if st =? 0 then StatusOK else st
  | OpWriteHeader c => c
  end.

End deferstats.

(** ** Concrete writers, handlers and requests, for the examples *)

Module samples_http.
Import deferstats.

Inductive call :=
| CallWriteHeader (s : Z)
| CallWrite (b : string).

(** A writer that records the calls made on it and accepts every byte. *)
#[export] Instance recorder : ResponseWriter (list call) := {|
  GetHeader _ := ∅;
  Write w0 b := (w0 ++ [CallWrite b], (Z.of_nat (String.length b), None));
  WriteHeader w0 s := w0 ++ [CallWriteHeader s];
|}.

Definition request_with (parent : list string) : Request :=
  {| URL_Path := "/orders"; RMethod := "GET";
     RHeader := {[ "X-Dpparentspanid"%string := parent;
                   "Accept"%string := ["text/html"; "text/plain"]%string ]} |}.

Definition request_plain : Request :=
  {| URL_Path := "/orders"; RMethod := "GET";
     RHeader := {[ "Accept"%string := ["text/html"; "text/plain"]%string ]} |}.

Definition panicking (r : Request) : Handler string :=
  HWrite "partial" (λ _, HPanic "boom"%string).

Definition answering (r : Request) : Handler string :=
  HWriteHeader 201 (HWrite "created" (λ _, HReturn)).

(** A request that takes 20 ms, and one that takes 600 ms. *)
Definition fast : Ambient :=
  {| start_now := 1000; end_now := 1000 + 20 * 1000000; new_id := 99;
     stack := "goroutine 1 [running]"; trace := "main.go:10" |}.

Definition slow : Ambient :=
  {| start_now := 1000; end_now := 1000 + 600 * 1000000; new_id := 99;
     stack := "goroutine 1 [running]"; trace := "main.go:10" |}.

Definition globals0 : Globals :=
  {| curlist := []; LatencyThreshold := 500; rpms := [] |}.

End samples_http.

(** * Properties *)

(** ** Trimming *)

Section TrimFacts.
Import GoStrings.
Variable p1 : ascii -> bool.
Variable p2 : ascii -> ascii -> bool.
Variable p3 : ascii -> ascii -> ascii -> bool.

(** One step of the scan: the rune at the head is dropped when it is white
    space. *)
Lemma trim_unfold s :
  trim p1 p2 p3 s =
  match spaceLen p1 p2 p3 s with
  | O => s
  | n => trim p1 p2 p3 (drop n s)
  end.
Proof.
  destruct s as [|c1 [|c2 [|c3 r3]]]; simpl; try reflexivity.
  - destruct (p1 c1); reflexivity.
  - destruct (p1 c1); [reflexivity|]. destruct (p2 c1 c2); reflexivity.
  - destruct (p1 c1); [reflexivity|]. destruct (p2 c1 c2); [reflexivity|].
    destruct (p3 c1 c2 c3); reflexivity.
Qed.

Lemma spaceLen_le s : (spaceLen p1 p2 p3 s <= length s)%nat.
Proof.
  destruct s as [|c1 [|c2 [|c3 r3]]]; simpl; repeat case_match; lia.
Qed.

Lemma trim_bounded n : forall s, (length s <= n)%nat ->
  spaceLen p1 p2 p3 (trim p1 p2 p3 s) = O
  /\ exists pre, s = pre ++ trim p1 p2 p3 s.
Proof.
  induction n as [|n IH]; intros s Hn.
  - destruct s; [|simpl in Hn; lia]. split; [reflexivity|]. by exists [].
  - rewrite trim_unfold. destruct (spaceLen p1 p2 p3 s) as [|k] eqn:Hk.
    + split; [exact Hk|]. by exists [].
    + pose proof (spaceLen_le s) as Hle.
      destruct (IH (drop (S k) s)) as [H0 [pre Hpre]].
      { rewrite length_drop. lia. }
      split; [exact H0|].
      exists (take (S k) s ++ pre). rewrite <- app_assoc, <- Hpre.
      by rewrite take_drop.
Qed.

Lemma trim_no_space s : spaceLen p1 p2 p3 (trim p1 p2 p3 s) = O.
Proof. exact (proj1 (trim_bounded (length s) s (le_n _))). Qed.

Lemma trim_suffix s : exists pre, s = pre ++ trim p1 p2 p3 s.
Proof. exact (proj2 (trim_bounded (length s) s (le_n _))). Qed.

(** A white-space rune at the head of a prefix is one at the head of the
    whole. *)
Lemma spaceLen_app s t :
  spaceLen p1 p2 p3 (s ++ t) = O -> spaceLen p1 p2 p3 s = O.
Proof.
  destruct s as [|c1 [|c2 [|c3 r3]]]; simpl; try reflexivity.
  - destruct (p1 c1); [|reflexivity]. intros; discriminate.
  - destruct (p1 c1); [intros; discriminate|].
    destruct (p2 c1 c2); [|reflexivity]. destruct t; intros; discriminate.
  - tauto.
Qed.

Lemma runs_app s t :
  runs p1 p2 p3 s -> runs p1 p2 p3 t -> runs p1 p2 p3 (s ++ t).
Proof.
  induction 1 as [|c1 r H1 _ IH|c1 c2 r H2 _ IH|c1 c2 c3 r H3 _ IH];
    intros Ht; simpl;
    [assumption|apply runs_1; auto|apply runs_2; auto|apply runs_3; auto].
Qed.

(** What the scan drops in one step is one rune. *)
Lemma spaceLen_rune s k :
  spaceLen p1 p2 p3 s = S k -> runs p1 p2 p3 (take (S k) s).
Proof.
  destruct s as [|c1 [|c2 [|c3 r3]]]; simpl; try discriminate.
  - destruct (p1 c1) eqn:E1; [|discriminate]. intros [= <-].
    apply runs_1; [assumption|constructor].
  - destruct (p1 c1) eqn:E1.
    { intros [= <-]. apply runs_1; [assumption|constructor]. }
    destruct (p2 c1 c2) eqn:E2; [|discriminate]. intros [= <-].
    apply runs_2; [assumption|constructor].
  - destruct (p1 c1) eqn:E1.
    { intros [= <-]. apply runs_1; [assumption|constructor]. }
    destruct (p2 c1 c2) eqn:E2.
    { intros [= <-]. apply runs_2; [assumption|constructor]. }
    destruct (p3 c1 c2 c3) eqn:E3; [|discriminate]. intros [= <-].
    simpl. rewrite take_0. apply runs_3; [assumption|constructor].
Qed.

(** What [trim] drops is made of such runes only. *)
Lemma trim_removed n : forall s, (length s <= n)%nat ->
  exists pre, s = pre ++ trim p1 p2 p3 s /\ runs p1 p2 p3 pre.
Proof.
  induction n as [|n IH]; intros s Hn.
  - destruct s; [|simpl in Hn; lia]. exists []. split; [done|constructor].
  - rewrite trim_unfold. destruct (spaceLen p1 p2 p3 s) as [|k] eqn:Hk.
    + exists []. split; [done|constructor].
    + pose proof (spaceLen_le s) as Hle.
      destruct (IH (drop (S k) s)) as (pre & Hpre & Hruns).
      { rewrite length_drop. lia. }
      exists (take (S k) s ++ pre). split.
      * rewrite <- app_assoc, <- Hpre. by rewrite take_drop.
      * apply runs_app; [by apply spaceLen_rune|assumption].
Qed.

(** Runes met from the back, read from the front. *)
Lemma runs_rev l :
  runs p1 (fun c1 c2 => p2 c2 c1) (fun c1 c2 c3 => p3 c3 c2 c1) l ->
  runs p1 p2 p3 (rev l).
Proof.
  induction 1 as [|c1 r H1 _ IH|c1 c2 r H2 _ IH|c1 c2 c3 r H3 _ IH]; simpl.
  - constructor.
  - apply runs_app; [assumption|]. apply runs_1; [assumption|constructor].
  - rewrite <- app_assoc. apply runs_app; [assumption|].
    simpl. apply runs_2; [assumption|constructor].
  - rewrite <- !app_assoc. apply runs_app; [assumption|].
    simpl. apply runs_3; [assumption|constructor].
Qed.
End TrimFacts.

(** ** [cleanTrace] *)

Section CleanTraceFacts.
Import GoStrings deferclient_trace.

Lemma append_cons c s t :
  String.append (String c s) t = String c (String.append s t).
Proof. reflexivity. Qed.

Lemma append_nil t : String.append EmptyString t = t.
Proof. reflexivity. Qed.

Ltac norm_append := rewrite ?append_cons, ?append_nil.

(** The three passes of [strings.Replace] amount to one pass that maps each
    byte on its own: no replacement text contains a byte that a later pass
    looks for. *)
Lemma three_passes_one_pass body :
  Replace (Replace (Replace body nl (String backslash "n")) tab (String backslash "t"))
    nul " " = escape_all body.
Proof.
  unfold nl, tab, nul, backslash.
  induction body as [|c body IH]; simpl; [reflexivity|].
  unfold escape_byte, nl, tab, nul, backslash.
  destruct (Ascii.eqb c "010").
  { norm_append. simpl. by rewrite IH. }
  simpl. destruct (Ascii.eqb c "009").
  { norm_append. simpl. by rewrite IH. }
  simpl. destruct (Ascii.eqb c "000"); norm_append; simpl; by rewrite IH.
Qed.

Lemma list_of_append s t :
  list_ascii_of_string (String.append s t)
  = list_ascii_of_string s ++ list_ascii_of_string t.
Proof.
  induction s as [|c s IH]; norm_append; simpl; [reflexivity|]. by rewrite IH.
Qed.

Lemma escape_all_clean body c :
  In c (list_ascii_of_string (escape_all body)) ->
  c <> nl /\ c <> tab /\ c <> nul.
Proof.
  induction body as [|d body IH]; simpl; [tauto|].
  rewrite list_of_append, in_app_iff. intros [H|H]; [|auto].
  unfold escape_byte in H.
  destruct (Ascii.eqb d nl) eqn:E1.
  { simpl in H. destruct H as [<-|[<-|[]]]; repeat split; discriminate. }
  destruct (Ascii.eqb d tab) eqn:E2.
  { simpl in H. destruct H as [<-|[<-|[]]]; repeat split; discriminate. }
  destruct (Ascii.eqb d nul) eqn:E3.
  { simpl in H. destruct H as [<-|[]]; repeat split; discriminate. }
  simpl in H. destruct H as [<-|[]].
  apply Ascii.eqb_neq in E1, E2, E3. auto.
Qed.

Lemma TrimRightSpace_prefix s : exists suf, s = TrimRightSpace s ++ suf.
Proof.
  unfold TrimRightSpace.
  destruct (trim_suffix isSpace1 isSpace2r isSpace3r (rev s)) as [pre Hpre].
  exists (rev pre).
  rewrite <- rev_app_distr, <- Hpre. by rewrite rev_involutive.
Qed.

Lemma TrimSpace_chars s c :
  In c (list_ascii_of_string (TrimSpace s)) -> In c (list_ascii_of_string s).
Proof.
  unfold TrimSpace. rewrite list_ascii_of_string_of_list_ascii.
  set (t := TrimLeftSpace (list_ascii_of_string s)).
  destruct (TrimRightSpace_prefix t) as [suf Hsuf].
  destruct (trim_suffix isSpace1 isSpace2 isSpace3 (list_ascii_of_string s))
    as [pre Hpre].
  fold (TrimLeftSpace (list_ascii_of_string s)) in Hpre. fold t in Hpre.
  intros Hin. rewrite Hpre, Hsuf, !in_app_iff. auto.
Qed.

Lemma TrimSpace_no_leading s : leadingSpace (TrimSpace s) = false.
Proof.
  unfold leadingSpace, TrimSpace. rewrite list_ascii_of_string_of_list_ascii.
  set (t := TrimLeftSpace (list_ascii_of_string s)).
  destruct (TrimRightSpace_prefix t) as [suf Hsuf].
  rewrite (spaceLen_app _ _ _ (TrimRightSpace t) suf); [reflexivity|].
  rewrite <- Hsuf. apply trim_no_space.
Qed.

Lemma TrimSpace_no_trailing s : trailingSpace (TrimSpace s) = false.
Proof.
  unfold trailingSpace, TrimSpace. rewrite list_ascii_of_string_of_list_ascii.
  unfold TrimRightSpace. rewrite rev_involutive.
  by rewrite trim_no_space.
Qed.

(** What [TrimSpace] takes away is white space, at the two ends: the input
    is its result between a prefix and a suffix that are made of white-space
    runes only. *)
Lemma TrimSpace_removed s :
  exists pre suf,
    list_ascii_of_string s = pre ++ list_ascii_of_string (TrimSpace s) ++ suf
    /\ whitespace pre /\ whitespace suf.
Proof.
  unfold TrimSpace. rewrite list_ascii_of_string_of_list_ascii.
  destruct (trim_removed isSpace1 isSpace2 isSpace3 _ (list_ascii_of_string s)
              (le_n _)) as (pre & Hpre & Hruns).
  fold (TrimLeftSpace (list_ascii_of_string s)) in Hpre.
  set (t := TrimLeftSpace (list_ascii_of_string s)) in *.
  destruct (trim_removed isSpace1 isSpace2r isSpace3r _ (rev t) (le_n _))
    as (sufr & Hsuf & Hrunsr).
  exists pre, (rev sufr). split; [|split].
  - rewrite Hpre at 1. f_equal. unfold TrimRightSpace.
    rewrite <- rev_app_distr, <- Hsuf. by rewrite rev_involutive.
  - exact Hruns.
  - unfold whitespace. by apply runs_rev.
Qed.

(** C4: for every input, [cleanTrace] is the byte-by-byte sanitisation the
    specification describes (newline to backslash-n, tab to backslash-t, NUL
    to a space) followed by the trim of the surrounding white space: the
    sanitised input is the result between a prefix and a suffix made of
    white-space runes only, and the result neither begins nor ends with a
    white-space rune; the result holds no newline, tab or NUL byte; and the
    input a, newline, b, tab, c, NUL, d gives exactly [a\nb\tc d]. *)
Theorem cleanTrace_sanitizes :
  (forall body, cleanTrace body = cleanTrace_spec body)
  /\ (forall body c, In c (list_ascii_of_string (cleanTrace body)) ->
        c <> nl /\ c <> tab /\ c <> nul)
  /\ (forall body, leadingSpace (cleanTrace body) = false
                   /\ trailingSpace (cleanTrace body) = false)
  /\ cleanTrace sample_trace = "a\nb\tc d"%string
  /\ (forall body, exists pre suf,
        list_ascii_of_string (escape_all body)
        = pre ++ list_ascii_of_string (cleanTrace body) ++ suf
        /\ whitespace pre /\ whitespace suf).
Proof.
  assert (Heq : forall body, cleanTrace body = cleanTrace_spec body).
  { intros body. unfold cleanTrace, cleanTrace_spec.
    by rewrite three_passes_one_pass. }
  split; [exact Heq|]. split; [|split; [|split]].
  - intros body c Hin. rewrite Heq in Hin.
    apply TrimSpace_chars in Hin. by apply escape_all_clean in Hin.
  - intros body. split; [apply TrimSpace_no_leading|apply TrimSpace_no_trailing].
  - reflexivity.
  - intros body. rewrite Heq. apply TrimSpace_removed.
Qed.
End CleanTraceFacts.

(** ** [strconv.ParseInt] *)

Section ParseFacts.
Import strconv.

Lemma digit_range c d : digit c = Some d -> 0 <= d <= 9.
Proof.
  unfold digit. destruct (_ && _) eqn:E; [|discriminate].
  intros [= <-]. lia.
Qed.

Lemma digits_value_mono s : forall n, 0 <= n -> n <= digits_value s n.
Proof.
  induction s as [|c r IH]; intros n Hn; simpl; [lia|].
  destruct (digit c) as [d|] eqn:Hd; [|lia].
  apply digit_range in Hd. specialize (IH (n * 10 + d)). lia.
Qed.

(** The loop of [ParseUint] in closed form: a range error as soon as the
    leading digits exceed 64 bits, whatever follows them; otherwise the value
    when every byte is a digit, and a syntax error when one is not. *)
Lemma ParseUint_loop_spec s : forall n, 0 <= n <= maxUint64 ->
  ParseUint_loop s n =
    if digits_value s n >? maxUint64 then (maxUint64, Some ErrRange)
    else if all_digits s then (digits_value s n, None)
    else (0, Some ErrSyntax).
Proof.
  induction s as [|c r IH]; intros n Hn; simpl.
  - destruct (n >? maxUint64) eqn:E; [lia|reflexivity].
  - destruct (digit c) as [d|] eqn:Hd.
    + pose proof (digit_range _ _ Hd) as Hdr.
      pose proof (digits_value_mono r (n * 10 + d)) as Hmono.
      unfold maxUint64, to_uint64 in *.
      change (2 ^ 64 - 1) with 18446744073709551615 in *.
      change (2 ^ 64) with 18446744073709551616 in *.
      change (18446744073709551615 / 10 + 1) with 1844674407370955162.
      destruct (n >=? 1844674407370955162) eqn:Hcut.
      { rewrite (proj2 (Z.gtb_gt _ _)) by lia. reflexivity. }
      destruct (Z_le_gt_dec (n * 10 + d) 18446744073709551615) as [Hfit|Hover].
      * rewrite (Z.mod_small (n * 10 + d)) by lia.
        rewrite (proj2 (Z.ltb_ge _ _)) by lia.
        destruct (n * 10 + d >? 18446744073709551615) eqn:E; [lia|]. simpl.
        apply IH. lia.
      * assert (Hm : (n * 10 + d) mod 18446744073709551616
                     = n * 10 + d - 18446744073709551616).
        { symmetry. apply (Z.mod_unique_pos _ _ 1); lia. }
        rewrite Hm. rewrite (proj2 (Z.ltb_lt _ _)) by lia. simpl.
        rewrite (proj2 (Z.gtb_gt _ _)) by lia. reflexivity.
    + destruct (n >? maxUint64) eqn:E; [lia|reflexivity].
Qed.

Lemma ParseUint_non_numeric s1 :
  match s1 with EmptyString => false | _ => all_digits s1 end = false ->
  digits_value s1 0 <= maxUint64 ->
  ParseUint s1 = (0, Some ErrSyntax).
Proof.
  intros Hnum Hfit. destruct s1 as [|c r]; [reflexivity|].
  unfold ParseUint. rewrite ParseUint_loop_spec by (unfold maxUint64; lia).
  destruct (_ >? _) eqn:E; [lia|]. by rewrite Hnum.
Qed.

Lemma ParseInt_unsigned s :
  ParseUint (unsigned s) = (0, Some ErrSyntax) -> ParseInt s = (0, Some ErrSyntax).
Proof.
  destruct s as [|c0 r0]; [reflexivity|]. unfold ParseInt, unsigned.
  destruct (Ascii.eqb c0 "+"); simpl; [by intros ->|].
  destruct (Ascii.eqb c0 "-"); simpl; by intros ->.
Qed.

Lemma ParseInt_non_numeric s :
  numeric s = false -> digits_value (unsigned s) 0 <= maxUint64 ->
  ParseInt s = (0, Some ErrSyntax).
Proof.
  intros Hnum Hfit. apply ParseInt_unsigned.
  apply ParseUint_non_numeric; [exact Hnum|exact Hfit].
Qed.

Lemma ParseInt_syntax_zero s :
  (ParseInt s).2 = Some ErrSyntax -> (ParseInt s).1 = 0.
Proof.
  destruct s as [|c0 r0]; [reflexivity|]. unfold ParseInt.
  destruct (if Ascii.eqb c0 "+" then _ else _) as [neg s1].
  destruct (ParseUint s1) as [un [[]|]]; simpl; try reflexivity;
    repeat case_match; simpl; try discriminate; reflexivity.
Qed.
End ParseFacts.

Example ParseInt_examples :
  strconv.ParseInt "42" = (42, None)
  /\ strconv.ParseInt "-7" = (-7, None)
  /\ strconv.ParseInt "abc" = (0, Some strconv.ErrSyntax)
  /\ strconv.ParseInt "4 2" = (0, Some strconv.ErrSyntax)
  /\ strconv.ParseInt "9223372036854775808"
     = (9223372036854775807, Some strconv.ErrRange).
Proof. repeat split; reflexivity. Qed.

(** ** [Postit] and [ShipTrace] *)

Section ClientFacts.
Import deferclient.
Context {V : Type} {RT : Runtime V}.
Variable others : nat -> gmap Z bool -> gmap Z bool.
Variable Unmarshal : string -> string + Response.

Lemma set_RunningCommands_same c : set_RunningCommands c (RunningCommands c) = c.
Proof. by destruct c. Qed.

Lemma launches_of_app id evs1 evs2 :
  launches_of id (evs1 ++ evs2) = (launches_of id evs1 + launches_of id evs2)%nat.
Proof. unfold launches_of. by rewrite filter_app, length_app. Qed.

Lemma launches_of_status_log id code : launches_of id (status_log code) = O.
Proof. unfold status_log. by repeat case_match. Qed.

(** What [Postit] does once the reply has been read and decoded. *)
Lemma Postit_analyse c b url agent resp body response :
  NoPost c = false -> url_parses url = true -> Agent_ c = Some agent ->
  HttpClient c (newRequest c b url agent) = inr resp ->
  Body resp = inr body -> Unmarshal body = inr response ->
  Postit others Unmarshal c b url true =
  (Do (newRequest c b url agent) :: status_log (StatusCode resp)
     ++ (dispatch others 0 (Commands response) (RAgent response) (RunningCommands c)).1
     ++ [BodyClose],
   Returned (),
   set_RunningCommands c
     (dispatch others 0 (Commands response) (RAgent response) (RunningCommands c)).2).
Proof.
  intros HNP Hurl Hag Hdo Hbody Hdec.
  unfold Postit, Postit_body. rewrite HNP, Hurl, Hag. simpl.
  rewrite Hdo, Hbody, Hdec.
  by destruct (dispatch _ _ _ _ _).
Qed.

(** The loop never writes the registry: what it leaves is what the other
    goroutines made of it. *)
Lemma dispatch_registry commands agent : forall i rc,
  (dispatch others i commands agent rc).2
  = registry_after others i (length commands) rc.
Proof.
  induction commands as [|command rest IH]; intros i rc; simpl; [reflexivity|].
  specialize (IH (S i) (others i rc)).
  destruct (dispatch others (S i) rest agent (others i rc)). exact IH.
Qed.

(** An id that is marked, and stays marked, is never launched. *)
Lemma dispatch_marked id commands agent :
  (forall j rc, default false (rc !! id) = true ->
                default false (others j rc !! id) = true) ->
  forall i rc, default false (rc !! id) = true ->
  launches_of id (dispatch others i commands agent rc).1 = O.
Proof.
  intros Hkeep. induction commands as [|command rest IH]; intros i rc Hrc; simpl;
    [reflexivity|].
  specialize (IH (S i) (others i rc) (Hkeep _ _ Hrc)).
  destruct (dispatch others (S i) rest agent (others i rc)) as [evs' rc'].
  simpl in *. rewrite launches_of_app, IH, Nat.add_0_r.
  destruct (default false (others i rc !! Id command)) eqn:Hrun; [reflexivity|].
  unfold launches_of. simpl.
  rewrite filter_cons. case_decide as Hl; [|reflexivity].
  exfalso. unfold launch in Hl.
  assert (Id command = id) as Heq by (destruct (Type_ command); simpl in Hl; congruence).
  rewrite Heq in Hrun. rewrite (Hkeep _ _ Hrc) in Hrun. discriminate.
Qed.

(** With the registry left alone, every command whose id is unmarked is
    handed to the [switch], repeated ids included. *)
Lemma dispatch_idle commands agent rc : forall i,
  dispatch idle i commands agent rc
  = (map (λ command, launch command agent)
       (filter (λ command, default false (rc !! Id command) = false) commands),
     rc).
Proof.
  induction commands as [|command rest IH]; intros i; simpl; [reflexivity|].
  change (idle i rc) with rc. rewrite (IH (S i)), filter_cons.
  destruct (default false (rc !! Id command)) eqn:Hrun.
  - rewrite decide_False by discriminate. reflexivity.
  - rewrite decide_True by reflexivity. reflexivity.
Qed.

(** Whatever the other goroutines do, each command is judged on the
    registry as it stands at its own read. *)
Lemma dispatch_on_read commands agent : forall i rc,
  (dispatch others i commands agent rc).1
  = launched_on_read others i agent rc commands.
Proof.
  unfold launched_on_read.
  induction commands as [|command rest IH]; intros i rc; simpl; [reflexivity|].
  specialize (IH (S i) (others i rc)).
  destruct (dispatch others (S i) rest agent (others i rc)) as [evs' rc'].
  simpl in *. rewrite IH. reflexivity.
Qed.

(** C1 (as amended): when [Postit] analyses a decoded reply, it reads, for
    each command, whether the id is marked running and hands the command to
    the [switch] exactly if it is not marked at that read, whatever the other
    goroutines do in between; it never writes [RunningCommands] itself
    (the registry it leaves is the one the other goroutines produced).  So an
    id that is marked running, and stays marked, is launched zero times;
    and when nothing else touches the registry meanwhile, every command with
    an unmarked id is launched, once per occurrence, and the client is left
    as it was. *)
Theorem Postit_dispatch_unmarked
    (c : DeferPanicClient) (b url : string) (agent : Agent)
    (resp : HttpResponse) (body : string) (response : Response)
    (HNoPost : NoPost c = false) (Hurl : url_parses url = true)
    (Hagent : Agent_ c = Some agent)
    (Hdo : HttpClient c (newRequest c b url agent) = inr resp)
    (Hbody : Body resp = inr body) (Hdec : Unmarshal body = inr response) :
  let out := Postit others Unmarshal c b url true in
  RunningCommands out.2
    = registry_after others 0 (length (Commands response)) (RunningCommands c)
  /\ (forall id,
        (forall j rc, default false (rc !! id) = true ->
                      default false (others j rc !! id) = true) ->
        default false (RunningCommands c !! id) = true ->
        launches_of id out.1.1 = O)
  /\ (others = idle ->
      out = (Do (newRequest c b url agent) :: status_log (StatusCode resp)
               ++ map (λ command, launch command (RAgent response))
                    (filter (λ command,
                               default false (RunningCommands c !! Id command) = false)
                       (Commands response))
               ++ [BodyClose],
             Returned (), c))
  /\ out.1.1
     = Do (newRequest c b url agent) :: status_log (StatusCode resp)
         ++ launched_on_read others 0 (RAgent response) (RunningCommands c)
              (Commands response)
         ++ [BodyClose].
Proof.
  intros out. subst out.
  rewrite (Postit_analyse c b url agent resp body response) by assumption.
  simpl. split; [apply dispatch_registry|]. split; [|split].
  - intros id Hkeep Hmarked.
    change (?x :: ?l ++ ?m) with ([x] ++ l ++ m).
    rewrite !launches_of_app, launches_of_status_log.
    rewrite (dispatch_marked id _ _ Hkeep 0%nat _ Hmarked).
    reflexivity.
  - intros Hidle. revert Hidle. clear. intros Hidle.
    rewrite Hidle, dispatch_idle. simpl.
    by rewrite set_RunningCommands_same.
  - by rewrite dispatch_on_read.
Qed.

(** C5 (as amended): when [ShipTrace] posts (NoPost off, the URL parses, the
    agent is set), the one request it sends carries the encoding of the
    report, and the report has the field [SpanId] exactly when the span id is
    positive, with that value; for zero and for negative span ids the field is
    left out. *)
Theorem ShipTrace_SpanId_positive
    (c : DeferPanicClient) (exception errorstr : string) (spanId : Z)
    (agent : Agent)
    (HNoPost : NoPost c = false) (Hurl : url_parses errorsUrl = true)
    (Hagent : Agent_ c = Some agent) :
  let o := DeferJSON_fields (report exception errorstr spanId) in
  sent_bodies (ShipTrace others Unmarshal c exception errorstr spanId).1.1
    = [json_encode o]
  /\ (has_field "SpanId" o = true <-> 0 < spanId)
  /\ (0 < spanId -> field "SpanId" o = Some (JNumber spanId))
  /\ field "ErrorName" o = Some (JString errorstr)
  /\ field "Body" o = Some (JString (deferclient_trace.cleanTrace exception)).
Proof.
  intros o. split; [|split; [|split; [|split]]].
  - unfold ShipTrace, Postit, Postit_body. rewrite HNoPost, Hurl, Hagent. simpl.
    destruct (HttpClient c _) as [err|resp]; simpl; [reflexivity|].
    unfold status_log. by repeat case_match.
  - subst o. unfold report, DeferJSON_fields, has_field.
    destruct (spanId >? 0) eqn:Hpos; simpl.
    + rewrite (proj2 (Z.eqb_neq spanId 0)) by lia. simpl. split; [lia|done].
    + split; [done|lia].
  - intros Hpos. subst o. unfold report, DeferJSON_fields.
    rewrite (proj2 (Z.gtb_gt spanId 0)) by lia. simpl.
    rewrite (proj2 (Z.eqb_neq spanId 0)) by lia. reflexivity.
  - subst o. unfold report. by destruct (spanId >? 0).
  - subst o. unfold report. by destruct (spanId >? 0).
Qed.

(** C10: with NoPost set, [ShipTrace] and [Postit] return at once: no event
    at all (no request built or sent, nothing logged, no task launched) and
    the client, [RunningCommands] included, exactly as it was. *)
Theorem NoPost_returns_immediately
    (c : DeferPanicClient) (exception errorstr b url : string) (spanId : Z)
    (analyseResponse : bool) (HNoPost : NoPost c = true) :
  ShipTrace others Unmarshal c exception errorstr spanId = ([], Returned (), c)
  /\ Postit others Unmarshal c b url analyseResponse = ([], Returned (), c).
Proof. unfold ShipTrace, Postit. by rewrite HNoPost. Qed.

(** C8: when the bytes of the reply fail to decode, [Postit] with
    [analyseResponse = true] logs the decode error, launches nothing, leaves
    the client as it was and returns normally; and for every input whatever,
    [Postit] returns normally (a panic of its body is recovered and
    logged). *)
Theorem Postit_decode_failure
    (c : DeferPanicClient) (b url : string) (agent : Agent)
    (resp : HttpResponse) (body err : string)
    (HNoPost : NoPost c = false) (Hurl : url_parses url = true)
    (Hagent : Agent_ c = Some agent)
    (Hdo : HttpClient c (newRequest c b url agent) = inr resp)
    (Hbody : Body resp = inr body) (Hdec : Unmarshal body = inl err) :
  Postit others Unmarshal c b url true
  = (Do (newRequest c b url agent) :: status_log (StatusCode resp)
       ++ [Log err; BodyClose], Returned (), c)
  /\ filter is_Go (Postit others Unmarshal c b url true).1.1 = []
  /\ forall c' b' url' analyseResponse,
       (Postit others Unmarshal c' b' url' analyseResponse).1.2 = Returned ().
Proof.
  assert (Heq : Postit others Unmarshal c b url true
    = (Do (newRequest c b url agent) :: status_log (StatusCode resp)
         ++ [Log err; BodyClose], Returned (), c)).
  { unfold Postit, Postit_body. rewrite HNoPost, Hurl, Hagent. simpl.
    rewrite Hdo, Hbody, Hdec. by rewrite set_RunningCommands_same. }
  split; [exact Heq|]. split.
  - rewrite Heq. simpl. unfold status_log. by repeat case_match.
  - intros c' b' url' ar. unfold Postit.
    destruct (NoPost c'); [reflexivity|].
    destruct (Postit_body _ _ _ _ _ _) as [[evs r] rc]. by destruct r.
Qed.
End ClientFacts.

(** A reply that names command 7 twice, on a client whose registry is empty
    and that no other goroutine touches: both commands pass the test. *)
Lemma Postit_dispatch_unmarked_witness :
  let out := deferclient.Postit (RT:=samples.string_runtime) deferclient.idle
               samples.decode_twice samples.client0 "b" "u" true in
  deferclient.RunningCommands out.2 = ∅
  /\ deferclient.launches_of 7 out.1.1 = 2%nat.
Proof.
  intros out.
  destruct (Postit_dispatch_unmarked (RT:=samples.string_runtime) deferclient.idle
    samples.decode_twice samples.client0 "b" "u" samples.agent0 _ "reply" _
    eq_refl eq_refl eq_refl eq_refl eq_refl eq_refl) as [H1 [_ [H3 _]]].
  split; [exact H1|].
  subst out. rewrite (H3 eq_refl). reflexivity.
Defined.

(** C1, as stated, fails: the capture task for id 7 is launched twice within
    one reply, and the id is not marked running when [Postit] returns. *)
Lemma Postit_same_id_launched_twice :
  let out := deferclient.Postit (RT:=samples.string_runtime) deferclient.idle
               samples.decode_twice samples.client0 "b" "u" true in
  ~ (deferclient.launches_of 7 out.1.1 <= 1)%nat
  /\ default false (deferclient.RunningCommands out.2 !! 7) = false.
Proof.
  split.
  - intros Hle. vm_compute in Hle. lia.
  - vm_compute. reflexivity.
Qed.

(** A goroutine that marks id 7 before each read: nothing is launched. *)
Example Postit_marked_before_read :
  let marking : nat -> gmap Z bool -> gmap Z bool := λ _ rc, <[7 := true]> rc in
  let out := deferclient.Postit (RT:=samples.string_runtime) marking
               samples.decode_twice samples.client0 "b" "u" true in
  deferclient.launches_of 7 out.1.1 = 0%nat
  /\ deferclient.RunningCommands out.2 !! 7 = Some true.
Proof. split; vm_compute; reflexivity. Qed.

Lemma ShipTrace_SpanId_positive_witness :
  let o := deferclient.DeferJSON_fields (deferclient.report "trace" "boom" 5) in
  deferclient.sent_bodies
    (deferclient.ShipTrace (RT:=samples.string_runtime) deferclient.idle
       samples.decode_fails samples.client0 "trace" "boom" 5).1.1
  = [samples.render o]
  /\ field "SpanId" o = Some (JNumber 5).
Proof.
  intros o.
  destruct (ShipTrace_SpanId_positive (RT:=samples.string_runtime) deferclient.idle
    samples.decode_fails samples.client0 "trace" "boom" 5 samples.agent0
    eq_refl eq_refl eq_refl) as [H1 [_ [H3 _]]].
  split; [exact H1|]. apply H3. reflexivity.
Defined.

(** C5, as stated, fails: the span id -1 is not zero, and the body
    [ShipTrace] sends has no [SpanId] field. *)
Lemma ShipTrace_negative_spanId_omitted :
  let o := deferclient.DeferJSON_fields (deferclient.report "trace" "boom" (-1)) in
  deferclient.sent_bodies
    (deferclient.ShipTrace (RT:=samples.string_runtime) deferclient.idle
       samples.decode_fails samples.client0 "trace" "boom" (-1)).1.1
  = [samples.render o]
  /\ has_field "SpanId" o = false
  /\ -1 <> 0.
Proof. split; [vm_compute; reflexivity|]. split; [reflexivity|lia]. Qed.

Lemma NoPost_returns_immediately_witness :
  deferclient.ShipTrace (RT:=samples.string_runtime) deferclient.idle
    samples.decode_twice samples.client_nopost "trace" "boom" 5
  = ([], Returned (), samples.client_nopost)
  /\ deferclient.Postit (RT:=samples.string_runtime) deferclient.idle
       samples.decode_twice samples.client_nopost "b" "u" true
     = ([], Returned (), samples.client_nopost).
Proof.
  exact (NoPost_returns_immediately (RT:=samples.string_runtime) deferclient.idle
           samples.decode_twice samples.client_nopost "trace" "boom" "b" "u" 5 true
           eq_refl).
Defined.

Lemma Postit_decode_failure_witness :
  deferclient.Postit (RT:=samples.string_runtime) deferclient.idle
    samples.decode_fails samples.client0 "b" "u" true
  = ([deferclient.Do (deferclient.newRequest samples.client0 "b" "u" samples.agent0);
      deferclient.Log "invalid character 'r' looking for beginning of value";
      deferclient.BodyClose],
     Returned (), samples.client0).
Proof.
  exact (proj1 (Postit_decode_failure (RT:=samples.string_runtime) deferclient.idle
    samples.decode_fails samples.client0 "b" "u" samples.agent0 _ "reply" _
    eq_refl eq_refl eq_refl eq_refl eq_refl eq_refl)).
Defined.

(** ** The request interceptor *)

Section HttpFacts.
Import GoStrings deferstats.
Context {W : Type} {RW : ResponseWriter W} {V : Type} {RT : Runtime V}.

Lemma foldl_put_lookup kvs : forall h, NoDup kvs.*1 -> forall k,
  foldl put h kvs !! k
  = match (list_to_map kvs : gmap string (list string)) !! k with
    | Some v => Some (Join v ",")
    | None => h !! k
    end.
Proof.
  induction kvs as [|[k0 v0] rest IH]; intros h Hnd k; [reflexivity|].
  rewrite fmap_cons in Hnd. apply NoDup_cons in Hnd as [Hnotin Hnd].
  simpl in Hnotin. simpl. rewrite IH by assumption. unfold put. simpl.
  destruct (decide (k0 = k)) as [->|Hne].
  - rewrite !lookup_insert_eq.
    by rewrite (not_elem_of_list_to_map_1 _ _ Hnotin).
  - rewrite !lookup_insert_ne by assumption. reflexivity.
Qed.

(** The loop over the headers, whatever the order of the visit. *)
Lemma BeforeRequest_range_spec kvs : forall h parent, NoDup kvs.*1 ->
  BeforeRequest_range kvs h parent
  = match (list_to_map kvs : gmap string (list string)) !! "X-Dpparentspanid"%string with
    | None => Returned (foldl put h kvs, parent)
    | Some [] => Panicked (runtimeError "index out of range [0] with length 0")
    | Some (v0 :: _) => Returned (foldl put h kvs, (strconv.ParseInt v0).1)
    end.
Proof.
  induction kvs as [|[k0 v0] rest IH]; intros h parent Hnd; [reflexivity|].
  rewrite fmap_cons in Hnd. apply NoDup_cons in Hnd as [Hnotin Hnd].
  simpl in Hnotin. simpl.
  destruct (String.eqb_spec k0 "X-Dpparentspanid") as [->|Hne].
  - rewrite lookup_insert_eq. destruct v0 as [|v0 vs]; [reflexivity|].
    rewrite IH by assumption.
    by rewrite (not_elem_of_list_to_map_1 _ _ Hnotin).
  - rewrite lookup_insert_ne by assumption. by apply IH.
Qed.

Lemma range_order_spec (m : Header) :
  NoDup (range_order m).*1
  /\ (list_to_map (range_order m) : gmap string (list string)) = m.
Proof.
  pose proof (range_order_perm m) as Hp.
  assert (Hnd : NoDup (range_order m).*1).
  { rewrite Hp. apply NoDup_fst_map_to_list. }
  split; [exact Hnd|].
  rewrite <- (list_to_map_to_list m) at 2.
  apply list_to_map_proper; assumption.
Qed.

Lemma foldl_put_range_order (m : Header) :
  foldl put ∅ (range_order m) = (λ v, Join v ",") <$> m.
Proof.
  destruct (range_order_spec m) as [Hnd Hm].
  apply map_eq. intros k. rewrite foldl_put_lookup by assumption.
  rewrite Hm, lookup_fmap. destruct (m !! k); reflexivity.
Qed.

Lemma BeforeRequest_spec (now id : Z) (w0 : W) (r : Request) :
  BeforeRequest now id w0 r =
  match RHeader r !! "X-Dpparentspanid"%string with
  | None =>
      Returned (now, {| w := w0; status := 0; size := 0; TSpanId := id;
                        TParentSpanId := 0 |},
                (λ v, Join v ",") <$> RHeader r)
  | Some [] => Panicked (runtimeError "index out of range [0] with length 0")
  | Some (v0 :: _) =>
      Returned (now, {| w := w0; status := 0; size := 0; TSpanId := id;
                        TParentSpanId := (strconv.ParseInt v0).1 |},
                (λ v, Join v ",") <$> RHeader r)
  end.
Proof.
  unfold BeforeRequest. simpl.
  destruct (range_order_spec (RHeader r)) as [Hnd Hm].
  rewrite BeforeRequest_range_spec by assumption.
  rewrite Hm. fold put. rewrite foldl_put_range_order.
  destruct (RHeader r !! _) as [[|v0 vs]|]; reflexivity.
Qed.

Lemma BeforeRequest_tracer (now id : Z) (w0 : W) (r : Request) startTime
    (tracer : ResponseTracer W) headers :
  BeforeRequest now id w0 r = Returned (startTime, tracer, headers) ->
  startTime = now /\ w tracer = w0 /\ status tracer = 0 /\ size tracer = 0
  /\ TSpanId tracer = id.
Proof.
  rewrite BeforeRequest_spec.
  destruct (RHeader r !! _) as [[|v0 vs]|]; intros H; inversion H; done.
Qed.

(** The handler reaches the tracer through the interface only: the span ids
    are as [BeforeRequest] set them. *)
Lemma ServeHTTP_spans (f : Handler V) : forall tracer,
  TSpanId (ServeHTTP f tracer).2 = TSpanId tracer
  /\ TParentSpanId (ServeHTTP f tracer).2 = TParentSpanId tracer.
Proof.
  induction f as [| |k IH|b k IH|s k IH]; intros tracer; simpl; try done.
  - unfold Tracer_Write. destruct (Write (w tracer) b) as [w' [sz err]].
    destruct (IH (sz, err)
      {| w := w';
         status := if status tracer =? 0 then StatusOK else status tracer;
         size := strconv.to_int64 (size tracer + sz);
         TSpanId := TSpanId tracer;
         TParentSpanId := TParentSpanId tracer |}) as [H1 H2]. done.
  - destruct (IH (Tracer_WriteHeader tracer s)) as [H1 H2]. done.
Qed.

Lemma appendHTTP_curlist g0 endTime start path method code sid psid isProblem hdrs :
  curlist (appendHTTP g0 endTime start path method code sid psid isProblem hdrs)
  = if (Z.quot (Sub endTime start) 1000000 >? LatencyThreshold g0) || isProblem
    then curlist g0
           ++ [{| Path := path; Method := method; StatusCode := code;
                  Time := Z.quot (Sub endTime start) 1000000;
                  SpanId := sid; ParentSpanId := psid;
                  IsProblem := isProblem; Headers := hdrs |}]
    else curlist g0.
Proof. unfold appendHTTP. by destruct (_ || _). Qed.

(** C7 (as amended): [BeforeRequest] copies every header into the flat map,
    the values joined with commas, in whatever order [range] visits them.
    Without the header [X-Dpparentspanid] the parent span id is 0; with it,
    the parent span id is what [ParseInt] returns for the first value, its
    error dropped: 42 for [42]; 0 whenever [ParseInt] reports a syntax
    error, which it does for every non-numeric value whose leading digits
    (after an optional sign) do not exceed 2^64-1.  (A header entry with no
    value at all, which no request read off the wire has, makes [v[0]]
    panic.) *)
Theorem BeforeRequest_headers_parent (now id : Z) (w0 : W) (r : Request) :
  let headers := (λ v, Join v ",") <$> RHeader r in
  let tracer p := {| w := w0; status := 0; size := 0; TSpanId := id;
                     TParentSpanId := p |} in
  match RHeader r !! "X-Dpparentspanid"%string with
  | None => BeforeRequest now id w0 r = Returned (now, tracer 0, headers)
  | Some [] =>
      BeforeRequest now id w0 r
      = Panicked (runtimeError "index out of range [0] with length 0")
  | Some (v0 :: _) =>
      BeforeRequest now id w0 r
      = Returned (now, tracer (strconv.ParseInt v0).1, headers)
      /\ (v0 = "42"%string -> (strconv.ParseInt v0).1 = 42)
      /\ (strconv.numeric v0 = false ->
          strconv.digits_value (strconv.unsigned v0) 0 <= strconv.maxUint64 ->
          strconv.ParseInt v0 = (0, Some strconv.ErrSyntax))
      /\ ((strconv.ParseInt v0).2 = Some strconv.ErrSyntax ->
          (strconv.ParseInt v0).1 = 0)
  end.
Proof.
  intros headers tracer. rewrite BeforeRequest_spec.
  destruct (RHeader r !! _) as [[|v0 vs]|]; try reflexivity.
  split; [reflexivity|]. split; [by intros ->|]. split.
  - apply ParseInt_non_numeric.
  - apply ParseInt_syntax_zero.
Qed.

(** C2: when the wrapped handler panics, the interceptor returns normally;
    the registry has grown by exactly one outcome, with status 500 and
    isProblem set; the counter was told 500; the panic went to [Prep]; and the
    original writer, in the state the handler left it, received
    [WriteHeader(500)] and then [Write] of the panic value formatted with
    [%v]. *)
Theorem HTTPHandler_panic_recorded
    (base : deferclient.DeferPanicClient) (f : Request -> Handler V)
    (a : Ambient) (g : Globals) (w0 : W) (r : Request)
    (startTime : Z) (tracer tracer' : ResponseTracer W)
    (headers : gmap string string) (err : V)
    (HBefore : BeforeRequest (start_now a) (new_id a) w0 r
               = Returned (startTime, tracer, headers))
    (HServe : ServeHTTP (f r) tracer = (Some err, tracer')) :
  let dh := {| Path := URL_Path r; Method := RMethod r;
               StatusCode := 500;
               Time := Z.quot (Sub (end_now a) startTime) 1000000;
               SpanId := new_id a; ParentSpanId := TParentSpanId tracer;
               IsProblem := true; Headers := headers |} in
  HTTPHandler base WritePanicResponse f a g w0 r
  = Returned ({| curlist := curlist g ++ [dh];
                 LatencyThreshold := LatencyThreshold g;
                 rpms := rpms g ++ [500] |},
              (Write (WriteHeader (w tracer') 500) (Sprintf_v err)).1,
              deferclient.Prep base (stack a) (trace a) err (new_id a)).
Proof.
  intros dh. unfold HTTPHandler. rewrite HBefore, HServe.
  destruct (ServeHTTP_spans (f r) tracer) as [Hs Hp].
  rewrite HServe in Hs, Hp. simpl in Hs, Hp.
  destruct (BeforeRequest_tracer _ _ _ _ _ _ _ HBefore) as (_ & _ & _ & _ & Hid).
  unfold AfterRequest, appendHTTP. rewrite orb_true_r.
  unfold Add. subst dh. rewrite Hs, Hp, Hid. reflexivity.
Qed.

(** C3 (as amended): [appendHTTP] appends an outcome exactly when the
    elapsed time in whole milliseconds exceeds the threshold or isProblem is
    set, and the outcome carries the isProblem it was given.  So a request
    whose handler returns records nothing when the elapsed time is at most the
    threshold, and exactly one outcome, with isProblem = false, when it is
    above. *)
Theorem appendHTTP_threshold_policy
    (base : deferclient.DeferPanicClient) (wpr : W -> string -> W)
    (f : Request -> Handler V)
    (a : Ambient) (g : Globals) (w0 : W) (r : Request)
    (startTime : Z) (tracer tracer' : ResponseTracer W)
    (headers : gmap string string)
    (HBefore : BeforeRequest (start_now a) (new_id a) w0 r
               = Returned (startTime, tracer, headers))
    (HServe : ServeHTTP (f r) tracer = (None, tracer')) :
  let t := Z.quot (Sub (end_now a) startTime) 1000000 in
  let dh := {| Path := URL_Path r; Method := RMethod r;
               StatusCode := Status tracer'; Time := t;
               SpanId := new_id a; ParentSpanId := TParentSpanId tracer;
               IsProblem := false; Headers := headers |} in
  (exists g', HTTPHandler base wpr f a g w0 r = Returned (g', w tracer', [])
              /\ (t <= LatencyThreshold g -> curlist g' = curlist g)
              /\ (LatencyThreshold g < t -> curlist g' = curlist g ++ [dh]))
  /\ (forall g0 endTime start path method status_code span_id parent_span_id
             isProblem hdrs,
        let t0 := Z.quot (Sub endTime start) 1000000 in
        let g1 := appendHTTP g0 endTime start path method status_code span_id
                    parent_span_id isProblem hdrs in
        (LatencyThreshold g0 < t0 \/ isProblem = true ->
         curlist g1 = curlist g0
           ++ [{| Path := path; Method := method; StatusCode := status_code;
                  Time := t0; SpanId := span_id; ParentSpanId := parent_span_id;
                  IsProblem := isProblem; Headers := hdrs |}])
        /\ (t0 <= LatencyThreshold g0 -> isProblem = false ->
            curlist g1 = curlist g0)
        /\ (length (curlist g1) = S (length (curlist g0))
            <-> LatencyThreshold g0 < t0 \/ isProblem = true)).
Proof.
  intros t dh. split.
  - unfold HTTPHandler. rewrite HBefore, HServe.
    destruct (ServeHTTP_spans (f r) tracer) as [Hs Hp].
    rewrite HServe in Hs, Hp. simpl in Hs, Hp.
    destruct (BeforeRequest_tracer _ _ _ _ _ _ _ HBefore) as (_ & _ & _ & _ & Hid).
    eexists. split; [reflexivity|].
    unfold AfterRequest. rewrite appendHTTP_curlist. fold t.
    rewrite orb_false_r. split.
    + intros Hle. destruct (t >? LatencyThreshold g) eqn:E; [lia|reflexivity].
    + intros Hgt. rewrite (proj2 (Z.gtb_gt _ _)) by lia.
      subst dh. by rewrite Hs, Hp, Hid.
  - intros g0 endTime start path method code sid psid isProblem hdrs t0 g1.
    subst g1. rewrite appendHTTP_curlist. fold t0.
    destruct (Z.gtb_spec t0 (LatencyThreshold g0)) as [Hgt|Hle];
      destruct isProblem; simpl; rewrite ?length_app; simpl;
      (split; [|split; [|split]]); intros; try done; try lia; auto.
Qed.

(** C6: a tracer starts with status 0 and size 0 (0 is not 200), also the
    one [BeforeRequest] builds; [Write] with status 0 records 200, and with
    any other status leaves it; it hands the bytes to the underlying writer,
    returns that writer's count and error as they are and adds the count to
    the size; [WriteHeader] hands the code to the underlying writer and
    records it, so the code of the last [WriteHeader] is the status, also
    after earlier calls; [Status] and [Size] read the two fields. *)
Theorem ResponseTracer_status_machine
    (l : ResponseTracer W) (b : string) (code code' : Z) (w0 : W) :
  (status (newTracer w0) = 0 /\ size (newTracer w0) = 0 /\ StatusOK <> 0)
  /\ (forall now id r startTime tracer headers,
        BeforeRequest now id w0 r = Returned (startTime, tracer, headers) ->
        Status tracer = 0 /\ Size tracer = 0)
  /\ (status l = 0 -> status (Tracer_Write l b).1 = 200)
  /\ (status l <> 0 -> status (Tracer_Write l b).1 = status l)
  /\ (Tracer_Write l b).2 = (Write (w l) b).2
  /\ w (Tracer_Write l b).1 = (Write (w l) b).1
  /\ size (Tracer_Write l b).1
      = strconv.to_int64 (size l + (Write (w l) b).2.1)
  /\ (strconv.minInt64 <= size l + (Write (w l) b).2.1 <= strconv.maxInt64 ->
       Size (Tracer_Write l b).1 = Size l + (Write (w l) b).2.1)
  /\ (status (Tracer_WriteHeader l code) = code
       /\ w (Tracer_WriteHeader l code) = WriteHeader (w l) code
       /\ size (Tracer_WriteHeader l code) = size l)
  /\ status (Tracer_WriteHeader (Tracer_Write (Tracer_WriteHeader l code) b).1 code')
      = code'
  /\ (Status l = status l /\ Size l = size l).
Proof.
  split; [done|]. split.
  { intros now id r startTime tracer headers HB.
    by destruct (BeforeRequest_tracer _ _ _ _ _ _ _ HB) as (_ & _ & ? & ? & _). }
  unfold Tracer_Write, Tracer_WriteHeader, Status, Size, StatusOK.
  simpl. destruct (Write (w l) b) as [w' [sz err]] eqn:HW. simpl.
  destruct (Write (WriteHeader (w l) code) b) as [w'' [sz' err']]. simpl.
  repeat split; try done.
  - intros ->. reflexivity.
  - intros Hne. by rewrite (proj2 (Z.eqb_neq _ _) Hne).
  - intros Hfit. unfold strconv.to_int64, strconv.minInt64, strconv.maxInt64 in *.
    change (2 ^ 63) with 9223372036854775808 in *.
    change (2 ^ 64) with 18446744073709551616 in *.
    rewrite Z.mod_small by lia. lia.
Qed.

(** C9: on a writer whose dynamic type is not [*ResponseTracer], [GetSpanId]
    panics, and so does [GetSpanIdString]; on the tracer the interceptor
    installed they return its span id, as a number and in decimal. *)
Theorem GetSpanId_unchecked_assertion
    (r : writer_value W) (Hother : is_tracer r = false) :
  (exists v : V, GetSpanId r = Panicked v)
  /\ (exists v : V, GetSpanIdString r = Panicked v)
  /\ (forall t : ResponseTracer W,
        GetSpanId (V:=V) (IsTracer (Some t)) = Returned (TSpanId t)
        /\ GetSpanIdString (V:=V) (IsTracer (Some t))
            = Returned (strconv.FormatInt (TSpanId t))).
Proof.
  destruct r as [p| |]; [discriminate| |]; unfold GetSpanIdString; simpl;
    (split; [eexists; reflexivity|]; split; [eexists; reflexivity|]);
    intros t; done.
Qed.
End HttpFacts.

(** ** The interceptor on concrete requests *)

Import samples samples_http.

(** A handler that writes seven bytes and panics with [boom], on a request
    that took 20 ms: one outcome, the fallback response after the partial
    write, the panic handed to [Prep]. *)
Lemma HTTPHandler_panic_recorded_witness :
  deferstats.HTTPHandler (RW:=samples_http.recorder) (RT:=samples.string_runtime)
    samples.client0 deferstats.WritePanicResponse samples_http.panicking samples_http.fast
    samples_http.globals0 ([] : list samples_http.call) samples_http.request_plain
  = Returned
      ({| deferstats.curlist :=
            [{| deferstats.Path := "/orders"; deferstats.Method := "GET";
                deferstats.StatusCode := 500; deferstats.Time := 20;
                deferstats.SpanId := 99; deferstats.ParentSpanId := 0;
                deferstats.IsProblem := true;
                deferstats.Headers :=
                  {[ "Accept"%string := "text/html,text/plain"%string ]} |}];
          deferstats.LatencyThreshold := 500;
          deferstats.rpms := [500] |},
       [samples_http.CallWrite "partial"; samples_http.CallWriteHeader 500;
        samples_http.CallWrite "boom"],
       [deferclient.Go (deferclient.ShipTraceTask "main.go:10" "boom" 99)]).
Proof.
  exact (HTTPHandler_panic_recorded (RW:=samples_http.recorder)
    (RT:=samples.string_runtime) samples.client0
    samples_http.panicking samples_http.fast samples_http.globals0
    ([] : list samples_http.call) samples_http.request_plain
    _ _ _ _ "boom"%string eq_refl eq_refl).
Defined.

(** A handler that answers 201 with seven bytes, on a request too fast to be
    recorded and on one that took 600 ms. *)
Lemma appendHTTP_threshold_policy_witness :
  (exists g',
     deferstats.HTTPHandler samples.client0 deferstats.WritePanicResponse
       answering fast globals0 ([] : list call) request_plain
     = Returned (g', [CallWriteHeader 201; CallWrite "created"], [])
     /\ deferstats.curlist g' = [])
  /\ (exists g',
        deferstats.HTTPHandler samples.client0 deferstats.WritePanicResponse
          answering slow globals0 ([] : list call) request_plain
        = Returned (g', [CallWriteHeader 201; CallWrite "created"], [])
        /\ map (λ dh, (deferstats.StatusCode dh, deferstats.Time dh,
                       deferstats.IsProblem dh)) (deferstats.curlist g')
           = [(201, 600, false)]).
Proof.
  split.
  - destruct (appendHTTP_threshold_policy (RW:=recorder) (RT:=string_runtime)
      samples.client0
      deferstats.WritePanicResponse answering fast globals0 ([] : list call)
      request_plain 1000
      {| deferstats.w := []; deferstats.status := 0; deferstats.size := 0;
         deferstats.TSpanId := 99; deferstats.TParentSpanId := 0 |}
      {| deferstats.w := [CallWriteHeader 201; CallWrite "created"];
         deferstats.status := 201; deferstats.size := 7;
         deferstats.TSpanId := 99; deferstats.TParentSpanId := 0 |}
      {[ "Accept"%string := "text/html,text/plain"%string ]}
      eq_refl eq_refl) as [[g' [H1 [H2 _]]] _].
    exists g'. split; [exact H1|]. apply H2. vm_compute. discriminate.
  - destruct (appendHTTP_threshold_policy (RW:=recorder) (RT:=string_runtime)
      samples.client0
      deferstats.WritePanicResponse answering slow globals0 ([] : list call)
      request_plain 1000
      {| deferstats.w := []; deferstats.status := 0; deferstats.size := 0;
         deferstats.TSpanId := 99; deferstats.TParentSpanId := 0 |}
      {| deferstats.w := [CallWriteHeader 201; CallWrite "created"];
         deferstats.status := 201; deferstats.size := 7;
         deferstats.TSpanId := 99; deferstats.TParentSpanId := 0 |}
      {[ "Accept"%string := "text/html,text/plain"%string ]}
      eq_refl eq_refl) as [[g' [H1 [_ H3]]] _].
    exists g'. split; [exact H1|]. rewrite H3; [reflexivity|].
    vm_compute. reflexivity.
Defined.

(** C3, as stated, fails for a request that is slow and panics: it took
    600 ms, above the threshold of 500, and its one outcome has isProblem =
    true. *)
Lemma slow_panicking_request_is_problem :
  match deferstats.HTTPHandler samples.client0 deferstats.WritePanicResponse
          panicking slow globals0 ([] : list call) request_plain with
  | Returned (g', _, _) =>
      map (λ dh, (deferstats.Time dh, deferstats.IsProblem dh))
        (deferstats.curlist g')
  | Panicked _ => []
  end = [(600, true)]
  /\ deferstats.LatencyThreshold globals0 < 600.
Proof. split; vm_compute; reflexivity. Qed.

(** C7, as stated, fails for a value that is not a number but starts with
    twenty digits: [ParseInt] meets the overflow before the letter, reports a
    range error, and the parent span id is the largest [int64]. *)
Lemma overflowing_prefix_parent_not_zero :
  strconv.numeric "99999999999999999999x" = false
  /\ strconv.ParseInt "99999999999999999999x"
     = (9223372036854775807, Some strconv.ErrRange)
  /\ match deferstats.BeforeRequest (V:=string) 5 99 ([] : list call)
             (request_with ["99999999999999999999x"%string]) with
     | Returned (_, tracer, _) => deferstats.TParentSpanId tracer
     | Panicked _ => 0
     end = 9223372036854775807.
Proof. repeat split; vm_compute; reflexivity. Qed.

Lemma GetSpanId_unchecked_assertion_witness :
  (exists v : string,
     deferstats.GetSpanId (deferstats.OtherWriter ([] : list call)) = Panicked v)
  /\ (exists v : string,
        deferstats.GetSpanIdString (deferstats.OtherWriter ([] : list call))
        = Panicked v).
Proof.
  destruct (GetSpanId_unchecked_assertion (V:=string)
              (deferstats.OtherWriter ([] : list call)) eq_refl) as [H1 [H2 _]].
  split; [exact H1|exact H2].
Defined.

(** The header examples of the specification. *)
Example BeforeRequest_parent_examples :
  let parent r :=
    match deferstats.BeforeRequest (V:=string) 5 99 ([] : list call) r with
    | Returned (_, tracer, _) => Some (deferstats.TParentSpanId tracer)
    | Panicked _ => None
    end in
  parent (request_with ["42"%string]) = Some 42
  /\ parent (request_with ["abc"%string]) = Some 0
  /\ parent (request_with ["42"; "43"]%string) = Some 42
  /\ parent request_plain = Some 0
  /\ parent (request_with []) = None.
Proof. repeat split; vm_compute; reflexivity. Qed.

(** * Further properties *)

(** ** [cleanTrace], continued *)

Section MoreStrings.
Import GoStrings deferclient_trace.

Lemma trim_fixed p1 p2 p3 s : spaceLen p1 p2 p3 s = O -> trim p1 p2 p3 s = s.
Proof. intros H. rewrite trim_unfold. by rewrite H. Qed.

Lemma TrimSpace_fixed s :
  leadingSpace s = false -> trailingSpace s = false -> TrimSpace s = s.
Proof.
  unfold leadingSpace, trailingSpace, TrimSpace, TrimLeftSpace, TrimRightSpace.
  intros Hl Ht.
  apply negb_false_iff, Nat.eqb_eq in Hl. apply negb_false_iff, Nat.eqb_eq in Ht.
  rewrite (trim_fixed _ _ _ _ Hl), (trim_fixed _ _ _ _ Ht), rev_involutive.
  apply string_of_list_ascii_of_string.
Qed.

(** [Replace] changes nothing in a string that has no occurrence of [old]. *)
Lemma Replace_absent s old new :
  ~ In old (list_ascii_of_string s) -> Replace s old new = s.
Proof.
  induction s as [|c s IH]; simpl; [reflexivity|]. intros Hnot.
  destruct (Ascii.eqb_spec c old) as [->|Hne]; [tauto|].
  rewrite IH; [reflexivity|tauto].
Qed.

(** After [Replace], no occurrence of [old] is left, unless [new] brings
    one. *)
Lemma Replace_removes s old new :
  ~ In old (list_ascii_of_string new) ->
  ~ In old (list_ascii_of_string (Replace s old new)).
Proof.
  intros Hnew. induction s as [|c s IH]; simpl; [tauto|].
  destruct (Ascii.eqb_spec c old) as [->|Hne].
  - rewrite list_of_append, in_app_iff. tauto.
  - simpl. intros [?|?]; [congruence|tauto].
Qed.

Lemma escape_all_fixed body :
  (forall c, In c (list_ascii_of_string body) -> c <> nl /\ c <> tab /\ c <> nul) ->
  escape_all body = body.
Proof.
  induction body as [|c body IH]; simpl; [reflexivity|]. intros Hclean.
  destruct (Hclean c (or_introl eq_refl)) as (H1 & H2 & H3).
  unfold escape_byte.
  rewrite (proj2 (Ascii.eqb_neq _ _) H1), (proj2 (Ascii.eqb_neq _ _) H2),
    (proj2 (Ascii.eqb_neq _ _) H3).
  rewrite append_cons, append_nil, IH; [reflexivity|]. auto.
Qed.

Lemma cleanTrace_eq_spec body : cleanTrace body = cleanTrace_spec body.
Proof. unfold cleanTrace, cleanTrace_spec. by rewrite three_passes_one_pass. Qed.

Lemma cleanTrace_result_clean body :
  (forall c, In c (list_ascii_of_string (cleanTrace body)) ->
     c <> nl /\ c <> tab /\ c <> nul)
  /\ leadingSpace (cleanTrace body) = false
  /\ trailingSpace (cleanTrace body) = false.
Proof.
  rewrite cleanTrace_eq_spec. unfold cleanTrace_spec. split; [|split].
  - intros c Hin. apply TrimSpace_chars in Hin. by apply escape_all_clean in Hin.
  - apply TrimSpace_no_leading.
  - apply TrimSpace_no_trailing.
Qed.

Lemma cleanTrace_clean_fixed body :
  (forall c, In c (list_ascii_of_string body) -> c <> nl /\ c <> tab /\ c <> nul) ->
  leadingSpace body = false -> trailingSpace body = false ->
  cleanTrace body = body.
Proof.
  intros Hclean Hl Ht. rewrite cleanTrace_eq_spec. unfold cleanTrace_spec.
  rewrite escape_all_fixed by assumption. by apply TrimSpace_fixed.
Qed.

(** X1: the strings [cleanTrace] leaves as they are are exactly those with
    no newline, tab or NUL byte and no white-space rune at either end. *)
Theorem cleanTrace_fixed_points (body : string) :
  cleanTrace body = body
  <-> (forall c, In c (list_ascii_of_string body) -> c <> nl /\ c <> tab /\ c <> nul)
      /\ leadingSpace body = false /\ trailingSpace body = false.
Proof.
  split.
  - intros Heq. rewrite <- Heq. apply cleanTrace_result_clean.
  - intros (Hclean & Hl & Ht). by apply cleanTrace_clean_fixed.
Qed.

(** X2: sanitising twice is sanitising once. *)
Theorem cleanTrace_idempotent (body : string) :
  cleanTrace (cleanTrace body) = cleanTrace body.
Proof.
  destruct (cleanTrace_result_clean body) as (Hclean & Hl & Ht).
  by apply cleanTrace_clean_fixed.
Qed.
End MoreStrings.

(** ** [strconv], continued *)

Section MoreParse.
Import strconv.

Lemma to_int64_range z : minInt64 <= to_int64 z <= maxInt64.
Proof.
  unfold to_int64, minInt64, maxInt64.
  pose proof (Z.mod_pos_bound (z + 2 ^ 63) (2 ^ 64) ltac:(lia)). lia.
Qed.

Lemma to_int64_small z : minInt64 <= z <= maxInt64 -> to_int64 z = z.
Proof.
  unfold to_int64, minInt64, maxInt64. intros H.
  change (2 ^ 63) with 9223372036854775808 in *.
  change (2 ^ 64) with 18446744073709551616 in *.
  rewrite Z.mod_small by lia. lia.
Qed.

(** Whatever the input, [ParseInt] returns a value in the range of
    [int64]. *)
Lemma ParseInt_in_range (s : string) :
  minInt64 <= (ParseInt s).1 <= maxInt64.
Proof.
  assert (H0 : minInt64 <= 0 <= maxInt64) by (unfold minInt64, maxInt64; lia).
  destruct s as [|c0 r0]; [exact H0|]. unfold ParseInt.
  destruct (if Ascii.eqb c0 "+" then _ else _) as [neg s1].
  destruct (ParseUint s1) as [un [[]|]]; simpl; [exact H0| |];
    repeat case_match; simpl; try apply to_int64_range;
    unfold minInt64, maxInt64; lia.
Qed.

Lemma all_digits_head c r : all_digits (String c r) = true ->
  Ascii.eqb c "+" = false /\ Ascii.eqb c "-" = false.
Proof.
  simpl. destruct (digit c) as [d|] eqn:Hd; [|discriminate]. intros _.
  unfold digit in Hd.
  split; apply Ascii.eqb_neq; intros ->; vm_compute in Hd; discriminate.
Qed.

Lemma ParseUint_numeric s1 :
  s1 <> EmptyString -> all_digits s1 = true ->
  ParseUint s1 =
    if digits_value s1 0 >? maxUint64 then (maxUint64, Some ErrRange)
    else (digits_value s1 0, None).
Proof.
  intros Hne Hd. destruct s1 as [|c r]; [done|].
  unfold ParseUint. rewrite ParseUint_loop_spec by (unfold maxUint64; lia).
  by rewrite Hd.
Qed.

Lemma ParseInt_split s :
  s <> EmptyString ->
  ParseInt s =
    let '(un, err) := ParseUint (unsigned s) in
    match err with
    | Some ErrSyntax => (0, Some ErrSyntax)
    | _ =>
        if negb (negative s) && (un >=? 2 ^ 63) then (2 ^ 63 - 1, Some ErrRange)
        else if negative s && (un >? 2 ^ 63) then (- 2 ^ 63, Some ErrRange)
        else (if negative s then to_int64 (- to_int64 un) else to_int64 un, None)
    end.
Proof.
  destruct s as [|c0 r0]; [done|]. intros _. unfold ParseInt, unsigned, negative.
  destruct (Ascii.eqb_spec c0 "+") as [->|Hp]; simpl; [reflexivity|].
  destruct (Ascii.eqb c0 "-"); simpl; reflexivity.
Qed.

Lemma ParseInt_numeric s :
  numeric s = true ->
  let v := digits_value (unsigned s) 0 in
  let z := if negative s then - v else v in
  ParseInt s =
    if z >? maxInt64 then (maxInt64, Some ErrRange)
    else if z <? minInt64 then (minInt64, Some ErrRange)
    else (z, None).
Proof.
  intros Hnum v z.
  assert (Hs : s <> EmptyString) by (intros ->; discriminate).
  unfold numeric in Hnum.
  destruct (unsigned s) as [|c r] eqn:Hu; [discriminate|].
  rewrite ParseInt_split by assumption. rewrite Hu.
  rewrite ParseUint_numeric by done. fold v.
  pose proof (digits_value_mono (String c r) 0 ltac:(lia)) as Hv. fold v in Hv.
  unfold maxUint64, maxInt64, minInt64 in *. subst z.
  change (2 ^ 64 - 1) with 18446744073709551615 in *.
  change (2 ^ 63 - 1) with 9223372036854775807 in *.
  change (2 ^ 63) with 9223372036854775808 in *.
  destruct (negative s); simpl;
    repeat (rewrite ?Z.geb_leb, ?Z.gtb_ltb;
            match goal with
            | |- context [?a <? ?b] => destruct (Z.ltb_spec a b)
            | |- context [?a <=? ?b] => destruct (Z.leb_spec a b)
            end; simpl); try lia; try reflexivity; f_equal.
  - destruct (Z.eq_dec v 9223372036854775808) as [Heq|Hne]; [by rewrite Heq|].
    rewrite (to_int64_small v) by (unfold minInt64, maxInt64; lia).
    apply to_int64_small. unfold minInt64, maxInt64. lia.
  - apply to_int64_small. unfold minInt64, maxInt64. lia.
Qed.

Lemma digit_pretty_N_char d : (d < 10)%N -> digit (pretty_N_char d) = Some (Z.of_N d).
Proof.
  intros Hd. destruct d as [|p]; [reflexivity|].
  repeat (destruct p as [p|p|]; try lia; try reflexivity).
Qed.

Lemma pretty_N_go_digits x : forall s,
  (exists m, forall n, digits_value (pretty_N_go x s) n
                       = digits_value s (n * m + Z.of_N x))
  /\ (all_digits s = true -> all_digits (pretty_N_go x s) = true)
  /\ (s <> EmptyString -> pretty_N_go x s <> EmptyString).
Proof.
  induction (N.lt_wf_0 x) as [x _ IH]; intros s.
  destruct (N.eq_dec x 0%N) as [->|Hx].
  { rewrite pretty_N_go_0. split; [|done]. exists 1. intros n. f_equal. lia. }
  rewrite pretty_N_go_step by lia.
  assert (Hd : (x `mod` 10 < 10)%N) by (apply N.mod_lt; lia).
  destruct (IH (x `div` 10)%N ltac:(apply N.div_lt; lia)
              (String (pretty_N_char (x `mod` 10)) s)) as ([m Hm] & Hall & Hne).
  split; [|split].
  - exists (m * 10). intros n. rewrite Hm. simpl.
    rewrite digit_pretty_N_char by assumption. f_equal.
    rewrite (N.div_mod x 10) at 3 by lia. lia.
  - intros Hs. apply Hall. simpl. by rewrite digit_pretty_N_char.
  - intros _. by apply Hne.
Qed.

Lemma pretty_N_numeric (x : N) :
  pretty x <> EmptyString /\ all_digits (pretty x) = true
  /\ digits_value (pretty x) 0 = Z.of_N x.
Proof.
  unfold pretty, pretty_N. case_decide as Hx; [by subst|].
  assert (Hstep := pretty_N_go_step x EmptyString ltac:(lia)).
  destruct (pretty_N_go_digits x EmptyString) as ([m Hm] & Hall & _).
  split; [|split].
  - rewrite Hstep.
    by apply (proj2 (proj2 (pretty_N_go_digits (x `div` 10)%N _))).
  - by apply Hall.
  - rewrite Hm. simpl. lia.
Qed.

Lemma FormatInt_numeric z :
  numeric (FormatInt z) = true
  /\ (if negative (FormatInt z)
      then - digits_value (unsigned (FormatInt z)) 0
      else digits_value (unsigned (FormatInt z)) 0) = z.
Proof.
  destruct z as [|p|p].
  - split; reflexivity.
  - change (FormatInt (Z.pos p)) with (pretty (N.pos p)).
    destruct (pretty_N_numeric (N.pos p)) as (Hne & Hall & Hval).
    destruct (pretty (N.pos p)) as [|c r] eqn:Hp; [done|].
    destruct (all_digits_head c r Hall) as [H1 H2].
    unfold numeric, unsigned, negative. rewrite H1, H2. simpl orb. cbv iota.
    rewrite Hall. split; [reflexivity|]. rewrite Hval. lia.
  - change (FormatInt (Z.neg p)) with (String "-" (pretty (N.pos p))).
    destruct (pretty_N_numeric (N.pos p)) as (Hne & Hall & Hval).
    unfold numeric, unsigned, negative. simpl.
    destruct (pretty (N.pos p)) as [|c r] eqn:Hp; [done|].
    rewrite Hall. split; [reflexivity|]. rewrite Hval. lia.
Qed.

Lemma ParseInt_FormatInt z :
  minInt64 <= z <= maxInt64 -> ParseInt (FormatInt z) = (z, None).
Proof.
  intros Hz. destruct (FormatInt_numeric z) as [Hnum Hval].
  rewrite ParseInt_numeric by assumption. cbv zeta. rewrite Hval.
  destruct (z >? maxInt64) eqn:E1; [lia|].
  destruct (z <? minInt64) eqn:E2; [lia|]. reflexivity.
Qed.
End MoreParse.

(** ** The tracer and the interceptor, continued *)

Section MoreHttp.
Import GoStrings deferstats.
Context {W : Type} {RW : ResponseWriter W} {V : Type} {RT : Runtime V}.

(** X3: when the first value of [X-Dpparentspanid] is an optionally signed
    decimal numeral, the parent span id is the number it denotes, brought
    into the range of [int64] when it lies outside (the error of [ParseInt]
    is dropped). *)
Theorem BeforeRequest_numeric_parent
    (now id : Z) (w0 : W) (r : Request) (v0 : string) (vs : list string)
    (Hhdr : RHeader r !! "X-Dpparentspanid"%string = Some (v0 :: vs))
    (Hnum : strconv.numeric v0 = true) :
  let v := strconv.digits_value (strconv.unsigned v0) 0 in
  let z := if strconv.negative v0 then - v else v in
  BeforeRequest now id w0 r
  = Returned (now,
              {| w := w0; status := 0; size := 0; TSpanId := id;
                 TParentSpanId :=
                   Z.max strconv.minInt64 (Z.min strconv.maxInt64 z) |},
              (λ v, Join v ",") <$> RHeader r).
Proof.
  intros v z. rewrite BeforeRequest_spec, Hhdr.
  rewrite ParseInt_numeric by assumption. fold v. fold z.
  unfold strconv.minInt64, strconv.maxInt64.
  change (2 ^ 63) with 9223372036854775808.
  repeat (match goal with
          | |- context [?a >? ?b] => destruct (Z.gtb_spec a b)
          | |- context [?a <? ?b] => destruct (Z.ltb_spec a b)
          end; simpl); do 3 f_equal; f_equal; lia.
Qed.

(** X4: the string [GetSpanIdString] gives for a tracer, sent as the first
    value of [X-Dpparentspanid], comes back as that tracer's span id in the
    parent span id of the request that carries it. *)
Theorem span_id_round_trip
    (now id : Z) (w0 : W) (r : Request) (upstream : ResponseTracer W)
    (s : string) (vs : list string)
    (Hrange : strconv.minInt64 <= TSpanId upstream <= strconv.maxInt64)
    (Hstr : GetSpanIdString (V:=V) (IsTracer (Some upstream)) = Returned s)
    (Hhdr : RHeader r !! "X-Dpparentspanid"%string = Some (s :: vs)) :
  exists tracer headers,
    BeforeRequest now id w0 r = Returned (now, tracer, headers)
    /\ TParentSpanId tracer = TSpanId upstream.
Proof.
  unfold GetSpanIdString in Hstr. simpl in Hstr. injection Hstr as <-.
  rewrite BeforeRequest_spec, Hhdr. do 2 eexists. split; [reflexivity|].
  simpl. by rewrite ParseInt_FormatInt.
Qed.

Lemma to_int64_add a b :
  strconv.to_int64 (strconv.to_int64 a + b) = strconv.to_int64 (a + b).
Proof.
  unfold strconv.to_int64. f_equal.
  replace (a + 2 ^ 63) with (2 ^ 63 + a) by lia.
  replace ((2 ^ 63 + a) mod 2 ^ 64 - 2 ^ 63 + b + 2 ^ 63)
    with ((2 ^ 63 + a) mod 2 ^ 64 + b) by lia.
  rewrite Zplus_mod_idemp_l. f_equal. lia.
Qed.

Lemma ServeHTTP_Serve (f : Handler V) : forall tracer : ResponseTracer W,
  (ServeHTTP f tracer).1 = (Serve f (w tracer)).1.1
  /\ w (ServeHTTP f tracer).2 = (Serve f (w tracer)).1.2
  /\ strconv.to_int64 (size (ServeHTTP f tracer).2)
     = strconv.to_int64 (size tracer + written (Serve f (w tracer)).2)
  /\ status (ServeHTTP f tracer).2
     = foldl step_status (status tracer) (Serve f (w tracer)).2.
Proof.
  induction f as [| |k IH|b k IH|c k IH]; intros tracer; simpl.
  - by rewrite Z.add_0_r.
  - by rewrite Z.add_0_r.
  - apply IH.
  - unfold Tracer_Write. destruct (Write (w tracer) b) as [w1 [n err]] eqn:HW.
    specialize (IH (n, err)
      {| w := w1;
         status := if status tracer =? 0 then StatusOK else status tracer;
         size := strconv.to_int64 (size tracer + n);
         TSpanId := TSpanId tracer; TParentSpanId := TParentSpanId tracer |}).
    simpl in IH. destruct IH as (H1 & H2 & H3 & H4).
    destruct (Serve (k (n, err)) w1) as [[o w2] ops]. simpl in *.
    repeat split; try assumption.
    rewrite H3, to_int64_add. f_equal. lia.
  - specialize (IH (Tracer_WriteHeader tracer c)). simpl in IH.
    destruct IH as (H1 & H2 & H3 & H4).
    destruct (Serve k (WriteHeader (w tracer) c)) as [[o w2] ops]. simpl in *.
    repeat split; assumption.
Qed.

Lemma ServeHTTP_size_range (f : Handler V) : forall tracer : ResponseTracer W,
  strconv.minInt64 <= size tracer <= strconv.maxInt64 ->
  strconv.minInt64 <= size (ServeHTTP f tracer).2 <= strconv.maxInt64.
Proof.
  induction f as [| |k IH|b k IH|c k IH]; intros tracer Hr; simpl; try done.
  - by apply IH.
  - unfold Tracer_Write. destruct (Write (w tracer) b) as [w1 [n err]].
    apply IH. simpl. apply to_int64_range.
  - by apply IH.
Qed.

Lemma foldl_step_status_writes ops : forall st,
  forallb (λ o, negb (is_OpWriteHeader o)) ops = true ->
  foldl step_status st ops
  = match ops with
    | [] => st
    | _ => if st =? 0 then StatusOK else st
    end.
Proof.
  induction ops as [|o ops IH]; intros st Hw; [done|].
  simpl in Hw. apply andb_true_iff in Hw as [Ho Hw].
  destruct o as [b n err|c]; [|discriminate]. simpl.
  rewrite IH by assumption. destruct ops; [done|].
  destruct (Z.eqb_spec st 0) as [->|Hne]; [reflexivity|].
  by rewrite (proj2 (Z.eqb_neq _ _) Hne).
Qed.

(** X5: the tracer is transparent to the three methods of the interface:
    a handler that uses its writer through [Header], [Write] and
    [WriteHeader] only ends the same way, and leaves the underlying writer in
    the same state, whether it is served through the tracer or by that
    writer directly.  The dynamic type is where this ends: [GetSpanId]
    returns on the tracer and panics on the writer behind it. *)
Theorem ResponseTracer_transparent (f : Handler V) (tracer : ResponseTracer W) :
  (ServeHTTP f tracer).1 = (Serve f (w tracer)).1.1
  /\ w (ServeHTTP f tracer).2 = (Serve f (w tracer)).1.2
  /\ GetSpanId (V:=V) (IsTracer (Some tracer)) = Returned (TSpanId tracer)
  /\ (exists v : V, GetSpanId (OtherWriter (w tracer)) = Panicked v).
Proof.
  destruct (ServeHTTP_Serve f tracer) as (H1 & H2 & _).
  split; [exact H1|]. split; [exact H2|]. split; [reflexivity|].
  eexists. reflexivity.
Qed.

(** X6: after the handler, [Size] is the size before plus the byte counts
    the underlying [Write] calls returned (what was accepted, not what was
    offered), in 64-bit arithmetic. *)
Theorem ResponseTracer_size_is_sum (f : Handler V) (tracer : ResponseTracer W)
    (Hrange : strconv.minInt64 <= size tracer <= strconv.maxInt64) :
  let ops := (Serve f (w tracer)).2 in
  Size (ServeHTTP f tracer).2 = strconv.to_int64 (size tracer + written ops)
  /\ (strconv.minInt64 <= size tracer + written ops <= strconv.maxInt64 ->
      Size (ServeHTTP f tracer).2 = size tracer + written ops).
Proof.
  intros ops. destruct (ServeHTTP_Serve f tracer) as (_ & _ & H3 & _).
  fold ops in H3. unfold Size.
  rewrite (to_int64_small (size (ServeHTTP f tracer).2)) in H3
    by (by apply ServeHTTP_size_range).
  split; [exact H3|]. intros Hfit. rewrite H3. by apply to_int64_small.
Qed.

(** X7: the status a tracer ends with.  A handler that never calls
    [WriteHeader] leaves 0 when it wrote nothing and 200 when it wrote; after
    the last [WriteHeader(c)] the status is [c], except that a later [Write]
    turns a [c] of 0 into 200. *)
Theorem ResponseTracer_final_status (f : Handler V) (tracer : ResponseTracer W) :
  let ops := (Serve f (w tracer)).2 in
  let final := Status (ServeHTTP f tracer).2 in
  (forallb (λ o, negb (is_OpWriteHeader o)) ops = true -> status tracer = 0 ->
   final = match ops with [] => 0 | _ => 200 end)
  /\ (forall pre c post,
        ops = pre ++ OpWriteHeader c :: post ->
        forallb (λ o, negb (is_OpWriteHeader o)) post = true ->
        final = match post with
                | [] => c
                | _ => if c =? 0 then 200 else c
                end).
Proof.
  intros ops final. subst final. unfold Status.
  destruct (ServeHTTP_Serve f tracer) as (_ & _ & _ & H4). fold ops in H4.
  rewrite H4. split.
  - intros Hw Hst. rewrite foldl_step_status_writes by assumption.
    rewrite Hst. by destruct ops.
  - intros pre c post Hops Hw. rewrite Hops, foldl_app. simpl.
    by rewrite foldl_step_status_writes by assumption.
Qed.

(** X9: a panic of [BeforeRequest] is not recovered: with an
    [X-Dpparentspanid] entry that has no value the interceptor panics with the
    index error, before the handler runs and before anything is recorded. *)
Theorem HTTPHandler_header_panic_escapes
    (base : deferclient.DeferPanicClient) (wpr : W -> string -> W)
    (f : Request -> Handler V) (a : Ambient) (g : Globals) (w0 : W) (r : Request)
    (Hhdr : RHeader r !! "X-Dpparentspanid"%string = Some []) :
  HTTPHandler base wpr f a g w0 r
  = Panicked (runtimeError "index out of range [0] with length 0").
Proof. unfold HTTPHandler. by rewrite BeforeRequest_spec, Hhdr. Qed.

Lemma BeforeRequest_returns (now id : Z) (w0 : W) (r : Request) :
  RHeader r !! "X-Dpparentspanid"%string <> Some [] ->
  exists parent,
    BeforeRequest now id w0 r
    = Returned (now, {| w := w0; status := 0; size := 0; TSpanId := id;
                        TParentSpanId := parent |},
                (λ v, Join v ",") <$> RHeader r).
Proof.
  intros Hne. rewrite BeforeRequest_spec.
  destruct (RHeader r !! _) as [[|v0 vs]|]; [done| |]; eauto.
Qed.

Lemma appendHTTP_frame g0 endTime start path method code sid psid isProblem hdrs :
  rpms (appendHTTP g0 endTime start path method code sid psid isProblem hdrs)
  = rpms g0 ++ [code]
  /\ LatencyThreshold
       (appendHTTP g0 endTime start path method code sid psid isProblem hdrs)
     = LatencyThreshold g0.
Proof. unfold appendHTTP. by destruct (_ || _). Qed.

(** X8: the interceptor as a whole, for a handler that uses its writer
    through [Header], [Write] and [WriteHeader] only.  When [BeforeRequest]
    returns, the interceptor returns; the client's writer ends in the state
    that handler would have left it in when served by the client's writer
    directly, followed on a panic by [WriteHeader(500)] and the panic text;
    the counter is told exactly one code (500 on a panic, the tracer's final
    status otherwise); the threshold is untouched and the registry grows by
    at most one outcome. *)
Theorem HTTPHandler_transparent
    (base : deferclient.DeferPanicClient)
    (f : Request -> Handler V) (a : Ambient) (g : Globals) (w0 : W) (r : Request)
    (Hhdr : RHeader r !! "X-Dpparentspanid"%string <> Some []) :
  let direct := Serve (f r) w0 in
  exists g',
    HTTPHandler base WritePanicResponse f a g w0 r
    = Returned (g',
                match direct.1.1 with
                | None => direct.1.2
                | Some err =>
                    (Write (WriteHeader direct.1.2 500) (Sprintf_v err)).1
                end,
                match direct.1.1 with
                | None => []
                | Some err =>
                    deferclient.Prep base (stack a) (trace a) err (new_id a)
                end)
    /\ rpms g' = rpms g ++ [match direct.1.1 with
                            | None => foldl step_status 0 direct.2
                            | Some _ => 500
                            end]
    /\ LatencyThreshold g' = LatencyThreshold g
    /\ (curlist g' = curlist g
        \/ exists dh, curlist g' = curlist g ++ [dh]).
Proof.
  intros direct.
  destruct (BeforeRequest_returns (start_now a) (new_id a) w0 r Hhdr) as [parent HB].
  unfold HTTPHandler. rewrite HB.
  set (tracer := {| w := w0; status := 0; size := 0; TSpanId := new_id a;
                    TParentSpanId := parent |}).
  destruct (ServeHTTP_Serve (f r) tracer) as (H1 & H2 & _ & H4).
  destruct (ServeHTTP_spans (f r) tracer) as [Hs _].
  simpl in H1, H2, H4, Hs. fold direct in H1, H2, H4.
  destruct (ServeHTTP (f r) tracer) as [o tracer'] eqn:HS. simpl in *.
  rewrite <- H1, <- H2, <- H4.
  destruct o as [err|]; eexists;
    (split; [unfold WritePanicResponse; rewrite ?Hs; reflexivity|]);
    unfold AfterRequest, Status;
    (split; [apply appendHTTP_frame|]); (split; [apply appendHTTP_frame|]);
    rewrite appendHTTP_curlist; destruct (_ || _); eauto.
Qed.

Lemma quot_million_gt d L :
  0 <= L -> (L <? Z.quot d 1000000) = ((L + 1) * 1000000 <=? d).
Proof.
  intros HL. destruct (Z_le_gt_dec 0 d) as [Hd|Hd].
  - rewrite Z.quot_div_nonneg by lia.
    destruct (Z.leb_spec ((L + 1) * 1000000) d) as [H|H].
    + apply Z.ltb_lt.
      assert (L + 1 <= d / 1000000) by (apply Z.div_le_lower_bound; lia). lia.
    + apply Z.ltb_ge.
      assert (d / 1000000 < L + 1) by (apply Z.div_lt_upper_bound; lia). lia.
  - assert (Z.quot d 1000000 <= 0).
    { replace d with (- - d) by lia. rewrite Z.quot_opp_l by lia.
      pose proof (Z.quot_pos (- d) 1000000 ltac:(lia) ltac:(lia)). lia. }
    rewrite (proj2 (Z.ltb_ge _ _)) by lia.
    symmetry. apply Z.leb_gt. lia.
Qed.

(** X10: with a threshold that is not negative, a request that did not
    panic is recorded exactly when its elapsed time is at least
    (threshold + 1) whole milliseconds: the fraction of a millisecond is
    dropped, and a clock that went backwards records nothing. *)
Theorem appendHTTP_whole_milliseconds
    (g : Globals) (endTime start : Z) (path method : string)
    (status_code span_id parent_span_id : Z) (hdrs : gmap string string)
    (Hthreshold : 0 <= LatencyThreshold g) :
  let g' := appendHTTP g endTime start path method status_code span_id
              parent_span_id false hdrs in
  let elapsed := Sub endTime start in
  ((LatencyThreshold g + 1) * 1000000 <= elapsed ->
   curlist g'
   = curlist g ++ [{| Path := path; Method := method; StatusCode := status_code;
                      Time := Z.quot elapsed 1000000; SpanId := span_id;
                      ParentSpanId := parent_span_id; IsProblem := false;
                      Headers := hdrs |}])
  /\ (elapsed < (LatencyThreshold g + 1) * 1000000 -> curlist g' = curlist g).
Proof.
  intros g' elapsed. subst g'. rewrite appendHTTP_curlist. fold elapsed.
  rewrite orb_false_r, Z.gtb_ltb, quot_million_gt by assumption.
  split; intros H.
  - by rewrite (proj2 (Z.leb_le _ _)) by lia.
  - by rewrite (proj2 (Z.leb_gt _ _)) by lia.
Qed.

(** X11: the list behind the registry: after [Reset], the items added are
    what [List] returns, in the order added, whatever the list held before;
    [Add] keeps what was there; [Reset] empties it. *)
Theorem deferHTTPList_reset_add_list (d : deferHTTPList) (items : list DeferHTTP) :
  List (foldl Add (Reset d) items) = items
  /\ List (foldl Add d items) = List d ++ items
  /\ List (Reset (foldl Add d items)) = [].
Proof.
  assert (H : forall d0, foldl Add d0 items = d0 ++ items).
  { induction items as [|x l IH]; intros d0; simpl; [by rewrite app_nil_r|].
    rewrite IH. unfold Add. by rewrite <- app_assoc. }
  unfold List, Reset. rewrite !H. done.
Qed.
End MoreHttp.

(** ** [Postit], [ShipTrace] and the panic reporters, continued *)

Section MoreClient.
Import GoStrings deferclient.
Context {V : Type} {RT : Runtime V}.
Variable others : nat -> gmap Z bool -> gmap Z bool.
Variable Unmarshal : string -> string + Response.

Lemma status_log_quiet code :
  filter is_Go (status_log code) = []
  /\ sent_bodies (status_log code) = []
  /\ closes (status_log code) = O.
Proof. unfold status_log. by repeat case_match. Qed.

(** X12: when the transport fails, [Postit] logs the error and stops: the
    reply is not read, no body is closed, nothing is launched and the client
    is unchanged, with or without [analyseResponse]. *)
Theorem Postit_transport_failure
    (c : DeferPanicClient) (b url : string) (analyseResponse : bool)
    (agent : Agent) (err : string)
    (HNoPost : NoPost c = false) (Hurl : url_parses url = true)
    (Hagent : Agent_ c = Some agent)
    (Hdo : HttpClient c (newRequest c b url agent) = inl err) :
  Postit others Unmarshal c b url analyseResponse
  = ([Do (newRequest c b url agent); Log err], Returned (), c).
Proof.
  unfold Postit, Postit_body. rewrite HNoPost, Hurl, Hagent. simpl.
  rewrite Hdo. by rewrite set_RunningCommands_same.
Qed.

(** X13: without [analyseResponse], [Postit] neither decodes the reply nor
    looks at the registry: its result does not depend on the decoder or on
    what other goroutines do, it launches nothing and leaves the client as it
    was. *)
Theorem Postit_without_analysis
    (others' : nat -> gmap Z bool -> gmap Z bool)
    (Unmarshal' : string -> string + Response)
    (c : DeferPanicClient) (b url : string) :
  Postit others Unmarshal c b url false = Postit others' Unmarshal' c b url false
  /\ filter is_Go (Postit others Unmarshal c b url false).1.1 = []
  /\ (Postit others Unmarshal c b url false).2 = c.
Proof.
  unfold Postit, Postit_body.
  destruct (NoPost c); [done|].
  destruct (url_parses url); simpl; [|by rewrite set_RunningCommands_same].
  destruct (Agent_ c) as [agent|]; [|by rewrite set_RunningCommands_same].
  destruct (HttpClient c _) as [err|resp]; simpl;
    rewrite set_RunningCommands_same; [done|].
  split; [done|]. split; [|done].
  rewrite filter_cons, filter_app, (proj1 (status_log_quiet _)). done.
Qed.

(** X14: when the request cannot be built (the URL does not parse, or the
    client has no agent), nothing is sent: the nil dereference is recovered,
    logged once, and [Postit] returns with the client unchanged. *)
Theorem Postit_request_not_built
    (c : DeferPanicClient) (b url : string) (analyseResponse : bool)
    (HNoPost : NoPost c = false)
    (Hbad : url_parses url = false \/ Agent_ c = None) :
  Postit others Unmarshal c b url analyseResponse
  = ([Log (Sprintf_q
             (runtimeError "invalid memory address or nil pointer dereference"))],
     Returned (), c).
Proof.
  unfold Postit, Postit_body. rewrite HNoPost.
  destruct (url_parses url); simpl.
  - destruct Hbad as [?|Hag]; [done|]. rewrite Hag. simpl.
    by rewrite set_RunningCommands_same.
  - by rewrite set_RunningCommands_same.
Qed.

Lemma dispatch_quiet commands agent : forall i rc,
  sent_bodies (dispatch others i commands agent rc).1 = []
  /\ closes (dispatch others i commands agent rc).1 = O.
Proof.
  induction commands as [|command rest IH]; intros i rc; simpl; [done|].
  specialize (IH (S i) (others i rc)).
  destruct (dispatch others (S i) rest agent (others i rc)) as [evs' rc'].
  simpl in *. destruct IH as [IH1 IH2].
  unfold sent_bodies, closes in *. rewrite omap_app, filter_app, length_app.
  rewrite IH1, IH2.
  destruct (default false _); [done|].
  unfold launch. by destruct (Type_ command).
Qed.

(** The events of a call of [Postit] have one of four shapes. *)
Lemma Postit_shape (c : DeferPanicClient) (b url : string) (analyseResponse : bool) :
  let evs := (Postit others Unmarshal c b url analyseResponse).1.1 in
  (evs = [] /\ NoPost c = true)
  \/ (exists msg, evs = [Log msg]
                 /\ (url_parses url = false \/ Agent_ c = None))
  \/ (exists agent err, evs = [Do (newRequest c b url agent); Log err]
         /\ Agent_ c = Some agent
         /\ HttpClient c (newRequest c b url agent) = inl err)
  \/ (exists agent resp mid,
         evs = Do (newRequest c b url agent) :: status_log (StatusCode resp)
                 ++ mid ++ [BodyClose]
         /\ sent_bodies mid = [] /\ closes mid = O
         /\ NoPost c = false /\ url_parses url = true /\ Agent_ c = Some agent
         /\ HttpClient c (newRequest c b url agent) = inr resp).
Proof.
  intros evs. subst evs. unfold Postit, Postit_body.
  destruct (NoPost c) eqn:HNP; [by left|]. right.
  destruct (url_parses url) eqn:Hurl; simpl; [|left; eauto].
  destruct (Agent_ c) as [agent|] eqn:Hag; [|left; eauto]. right.
  destruct (HttpClient c _) as [err|resp] eqn:Hdo; simpl; [left; eauto|]. right.
  exists agent, resp.
  destruct analyseResponse.
  - destruct (Body resp) as [err|body].
    + exists [Log err]. done.
    + destruct (Unmarshal body) as [err|response].
      * exists [Log err]. done.
      * destruct (dispatch_quiet (Commands response) (RAgent response) 0%nat
                    (RunningCommands c)) as [Hs Hc].
        destruct (dispatch _ _ _ _ _) as [devs rc']. exists devs. done.
  - exists []. done.
Qed.

(** X15: one call of [Postit] sends at most one request and closes at most
    one body, never more bodies than requests; when the transport answered,
    exactly one request with the given body was sent, the body of the answer
    is closed exactly once, and closing it is the last thing that happens. *)
Theorem Postit_one_request_one_close
    (c : DeferPanicClient) (b url : string) (analyseResponse : bool) :
  let evs := (Postit others Unmarshal c b url analyseResponse).1.1 in
  (length (sent_bodies evs) <= 1)%nat
  /\ (closes evs <= length (sent_bodies evs))%nat
  /\ (forall agent resp,
        NoPost c = false -> url_parses url = true -> Agent_ c = Some agent ->
        HttpClient c (newRequest c b url agent) = inr resp ->
        sent_bodies evs = [b] /\ closes evs = 1%nat
        /\ last evs = Some BodyClose).
Proof.
  intros evs.
  destruct (Postit_shape c b url analyseResponse)
    as [[Hev HNP]|[(msg & Hev & Hbad)|[(agent & err & Hev & Hag & Hdo)
        |(agent & resp & mid & Hev & Hs & Hc & HNP & Hurl & Hag & Hdo)]]];
    fold evs in Hev; rewrite Hev.
  - split; [simpl; lia|]. split; [cbv; lia|]. intros; congruence.
  - split; [simpl; lia|]. split; [cbv; lia|].
    intros a r ? ? ? ?. destruct Hbad; congruence.
  - split; [simpl; lia|]. split; [cbv; lia|].
    intros a r ? ? Ha Hd. rewrite Hag in Ha. injection Ha as <-. congruence.
  - destruct (status_log_quiet (StatusCode resp)) as (_ & Hs' & Hc').
    assert (H1 : sent_bodies (Do (newRequest c b url agent)
                   :: status_log (StatusCode resp) ++ mid ++ [BodyClose]) = [b]).
    { unfold sent_bodies in *. simpl. by rewrite !omap_app, Hs, Hs'. }
    assert (H2 : closes (Do (newRequest c b url agent)
                   :: status_log (StatusCode resp) ++ mid ++ [BodyClose]) = 1%nat).
    { unfold closes in *. rewrite filter_cons. simpl.
      rewrite !filter_app, !length_app, Hc, Hc'. done. }
    rewrite H1, H2. split; [simpl; lia|]. split; [simpl; lia|].
    intros a r _ _ _ _. split; [done|]. split; [done|].
    rewrite app_comm_cons, app_assoc. apply last_snoc.
Qed.
End MoreClient.

Section MoreClient2.
Import GoStrings deferclient.
Context {V : Type} {RT : Runtime V}.
Variable others : nat -> gmap Z bool -> gmap Z bool.
Variable Unmarshal : string -> string + Response.

Lemma dispatch_sublist commands agent : forall i rc,
  (dispatch others i commands agent rc).1
    `sublist_of` map (λ command, launch command agent) commands.
Proof.
  induction commands as [|command rest IH]; intros i rc; simpl; [done|].
  specialize (IH (S i) (others i rc)).
  destruct (dispatch others (S i) rest agent (others i rc)) as [evs' rc'].
  simpl in *. destruct (default false _); simpl.
  - by apply sublist_cons.
  - by apply sublist_skip.
Qed.

Lemma sublist_filter_mono {A} (P : A -> Prop) `{!forall x, Decision (P x)}
    (l1 l2 : list A) :
  l1 `sublist_of` l2 -> filter P l1 `sublist_of` filter P l2.
Proof.
  induction 1 as [|x l1 l2 _ IH|x l1 l2 _ IH]; [done| |].
  - rewrite !filter_cons. case_decide; [by apply sublist_skip|done].
  - rewrite filter_cons. case_decide; [by apply sublist_cons|done].
Qed.

Lemma launches_of_launch id agent commands :
  (launches_of id (map (λ command, launch command agent) commands)
   <= length (filter (λ command, Id command = id) commands))%nat.
Proof.
  unfold launches_of. induction commands as [|command rest IH]; simpl; [done|].
  rewrite !filter_cons.
  destruct (decide (launched_id (launch command agent) = Some id)) as [Hl|Hl].
  - assert (Id command = id) as Heq.
    { unfold launch in Hl. destruct (Type_ command); simpl in Hl; congruence. }
    rewrite decide_True by assumption. simpl. lia.
  - case_decide; simpl; lia.
Qed.

(** X16: whatever other goroutines do to the registry, the tasks [Postit]
    launches for a decoded reply form a sublist of the launches of that
    reply's commands: each comes from a command of the reply, in the order of
    the reply, and no command launches more than once.  So an id is launched
    at most as often as the reply names it. *)
Theorem Postit_launches_from_reply
    (c : DeferPanicClient) (b url : string) (agent : Agent)
    (resp : HttpResponse) (body : string) (response : Response)
    (HNoPost : NoPost c = false) (Hurl : url_parses url = true)
    (Hagent : Agent_ c = Some agent)
    (Hdo : HttpClient c (newRequest c b url agent) = inr resp)
    (Hbody : Body resp = inr body) (Hdec : Unmarshal body = inr response) :
  let evs := (Postit others Unmarshal c b url true).1.1 in
  filter is_Go evs
    `sublist_of` map (λ command, launch command (RAgent response)) (Commands response)
  /\ forall id,
       (launches_of id evs
        <= length (filter (λ command, Id command = id) (Commands response)))%nat.
Proof.
  intros evs. subst evs.
  rewrite (Postit_analyse others Unmarshal c b url agent resp body response)
    by assumption.
  simpl.
  set (devs := (dispatch others 0 (Commands response) (RAgent response)
                  (RunningCommands c)).1).
  pose proof (dispatch_sublist (Commands response) (RAgent response) 0%nat
                (RunningCommands c)) as Hsub. fold devs in Hsub.
  split.
  - rewrite filter_cons. simpl. rewrite !filter_app.
    rewrite (proj1 (status_log_quiet _)). simpl.
    rewrite app_nil_r. etrans; [apply sublist_filter|exact Hsub].
  - intros id. change (?x :: ?l ++ ?m) with ([x] ++ l ++ m).
    rewrite !launches_of_app, launches_of_status_log.
    change (launches_of id [Do _]) with O. change (launches_of id [BodyClose]) with O.
    rewrite Nat.add_0_r. simpl.
    etrans; [|apply (launches_of_launch id (RAgent response))].
    unfold launches_of. apply sublist_length. by apply sublist_filter_mono.
Qed.

Lemma Postit_sends_at_most_one (c : DeferPanicClient) (b url : string)
    (analyseResponse : bool) :
  (length (sent_bodies (Postit others Unmarshal c b url analyseResponse).1.1)
   <= 1)%nat.
Proof.
  destruct (Postit_shape others Unmarshal c b url analyseResponse)
    as [[Hev _]|[(msg & Hev & _)|[(agent & err & Hev & _)
        |(agent & resp & mid & Hev & Hs & _)]]];
    cbv zeta in Hev; rewrite Hev; try (simpl; lia).
  destruct (status_log_quiet (StatusCode resp)) as (_ & Hs' & _).
  unfold sent_bodies in *. simpl. rewrite !omap_app, Hs, Hs'. simpl. lia.
Qed.

Lemma Postit_false_facts (c : DeferPanicClient) (b url : string) :
  filter is_Go (Postit others Unmarshal c b url false).1.1 = []
  /\ (Postit others Unmarshal c b url false).1.2 = Returned ()
  /\ (Postit others Unmarshal c b url false).2 = c.
Proof.
  unfold Postit, Postit_body.
  destruct (NoPost c); [done|].
  destruct (url_parses url); simpl; [|by rewrite set_RunningCommands_same].
  destruct (Agent_ c) as [agent|]; [|by rewrite set_RunningCommands_same].
  destruct (HttpClient c _) as [err|resp]; simpl;
    rewrite set_RunningCommands_same; [done|].
  split; [|done].
  rewrite filter_cons, filter_app, (proj1 (status_log_quiet _)). done.
Qed.

(** X17: [ShipTrace] never dispatches: whatever the reply, it launches no
    task, returns normally, leaves the client unchanged and sends at most one
    request. *)
Theorem ShipTrace_never_dispatches
    (c : DeferPanicClient) (exception errorstr : string) (spanId : Z) :
  let out := ShipTrace others Unmarshal c exception errorstr spanId in
  filter is_Go out.1.1 = [] /\ out.1.2 = Returned () /\ out.2 = c
  /\ (length (sent_bodies out.1.1) <= 1)%nat.
Proof.
  intros out. subst out. unfold ShipTrace.
  destruct (NoPost c) eqn:HNP; [simpl; repeat split; lia|].
  destruct (Postit_false_facts c
              (json_encode (DeferJSON_fields (report exception errorstr spanId)))
              errorsUrl) as (H1 & H2 & H3).
  repeat split; try assumption.
  apply Postit_sends_at_most_one.
Qed.
End MoreClient2.

Section MoreClient3.
Import GoStrings deferclient.
Context {V : Type} {RT : Runtime V}.
Variable others : nat -> gmap Z bool -> gmap Z bool.
Variable Unmarshal : string -> string + Response.

Lemma ShipTrace_posts c exception errorstr spanId agent :
  NoPost c = false -> url_parses errorsUrl = true -> Agent_ c = Some agent ->
  sent_bodies (ShipTrace others Unmarshal c exception errorstr spanId).1.1
  = [json_encode (DeferJSON_fields (report exception errorstr spanId))].
Proof.
  intros HNoPost Hurl Hagent.
  unfold ShipTrace, Postit, Postit_body. rewrite HNoPost, Hurl, Hagent. simpl.
  destruct (HttpClient c _) as [err|resp]; simpl; [reflexivity|].
  unfold status_log. by repeat case_match.
Qed.

Lemma ShipTrace_client c exception errorstr spanId :
  (ShipTrace others Unmarshal c exception errorstr spanId).2 = c.
Proof.
  unfold ShipTrace. destruct (NoPost c); [done|].
  apply Postit_false_facts.
Qed.

Lemma report_zero exception errorstr :
  has_field "SpanId" (DeferJSON_fields (report exception errorstr 0)) = false.
Proof. reflexivity. Qed.

(** X18: the message [prep] ships is the quoted panic value with every
    double quote removed.  [PrepSync] has sent the report by the time it
    returns, and leaves the client unchanged; [Prep] only spawns the task:
    it sends nothing itself. *)
Theorem prep_sync_sends_async_spawns
    (c : DeferPanicClient) (stack trace : string) (err : V) (spanId : Z)
    (agent : Agent)
    (HNoPost : NoPost c = false) (Hurl : url_parses errorsUrl = true)
    (Hagent : Agent_ c = Some agent) :
  let errorMsg := Replace (Sprintf_q err) "034"%char EmptyString in
  ~ In "034"%char (list_ascii_of_string errorMsg)
  /\ sent_bodies (PrepSync others Unmarshal c stack trace err spanId).1
     = [json_encode (DeferJSON_fields (report trace errorMsg spanId))]
  /\ (PrepSync others Unmarshal c stack trace err spanId).2 = c
  /\ Prep c stack trace err spanId
     = (if PrintPanics c then [Println stack] else [])
       ++ [Go (ShipTraceTask trace errorMsg spanId)]
  /\ (prep others Unmarshal c stack trace err spanId false).1
     = Prep c stack trace err spanId
  /\ sent_bodies (Prep c stack trace err spanId) = [].
Proof.
  intros errorMsg. subst errorMsg.
  split; [apply Replace_removes; simpl; tauto|].
  unfold PrepSync, prep, Prep.
  pose proof (ShipTrace_posts c trace (Replace (Sprintf_q err) "034" EmptyString)
                spanId agent HNoPost Hurl Hagent) as Hsent.
  pose proof (ShipTrace_client c trace (Replace (Sprintf_q err) "034" EmptyString)
                spanId) as Hc.
  destruct (ShipTrace _ _ _ _ _ _) as [[evs r] c']. simpl in *.
  split; [|split; [exact Hc|split; [reflexivity|split; [reflexivity|]]]].
  - unfold sent_bodies in *. rewrite omap_app, Hsent. by destruct (PrintPanics c).
  - unfold sent_bodies. rewrite omap_app. by destruct (PrintPanics c).
Qed.

(** X19: [Persist] swallows the panic it recovers and [PersistRepanic]
    re-raises exactly the value it recovered; with no panic in flight neither
    does anything; both leave the client unchanged.  When a panic is
    recovered and the client posts, [Persist] has sent nothing by the time it
    returns, and [PersistRepanic] has sent one report, without a [SpanId]
    field. *)
Theorem Persist_swallows_PersistRepanic_reraises
    (c : DeferPanicClient) (stack trace : string) (rec : option V) :
  (Persist others Unmarshal c stack trace rec).2 = None
  /\ (PersistRepanic others Unmarshal c stack trace rec).2 = rec
  /\ (Persist others Unmarshal c stack trace rec).1.2 = c
  /\ (PersistRepanic others Unmarshal c stack trace rec).1.2 = c
  /\ (rec = None ->
      (Persist others Unmarshal c stack trace rec).1.1 = []
      /\ (PersistRepanic others Unmarshal c stack trace rec).1.1 = [])
  /\ (forall err agent, rec = Some err ->
        NoPost c = false -> url_parses errorsUrl = true -> Agent_ c = Some agent ->
        sent_bodies (Persist others Unmarshal c stack trace rec).1.1 = []
        /\ exists o, sent_bodies (PersistRepanic others Unmarshal c stack trace rec).1.1
                     = [json_encode o]
                     /\ has_field "SpanId" o = false).
Proof.
  unfold Persist, PersistRepanic, PrepSync, prep.
  destruct rec as [err|]; simpl.
  - pose proof (ShipTrace_client c trace (Replace (Sprintf_q err) "034" EmptyString) 0)
      as Hc.
    pose proof (ShipTrace_posts c trace (Replace (Sprintf_q err) "034" EmptyString) 0)
      as Hsent.
    destruct (ShipTrace _ _ _ _ _ _) as [[evs r] c']. simpl in *.
    repeat split; try done.
    + unfold sent_bodies. rewrite omap_app. by destruct (PrintPanics c).
    + injection H as <-. eexists. split; [|apply report_zero].
      unfold sent_bodies in *. rewrite omap_app, (Hsent agent) by assumption.
      by destruct (PrintPanics c).
  - repeat split; done.
Qed.

(** X20: a client made by [NewDeferPanicClient] posts with the token, the
    version's user agent and empty environment and group; nothing is marked
    running on it, so with the registry left alone every command of the first
    analysed reply is handed to the [switch], in order. *)
Theorem fresh_client_dispatches_all
    (token b url : string) (a : Agent)
    (transport : Request -> string + HttpResponse)
    (resp : HttpResponse) (body : string) (response : Response)
    (Hurl : url_parses url = true)
    (Hdo : transport (newRequest (NewDeferPanicClient token a transport) b url a)
           = inr resp)
    (Hbody : Body resp = inr body) (Hdec : Unmarshal body = inr response) :
  let c := NewDeferPanicClient token a transport in
  ReqHeader (newRequest c b url a)
  = [("X-deferid", token); ("Content-Type", "application/json");
     ("User-Agent", "deferclient v1.17"); ("X-dpenv", EmptyString);
     ("X-dpgroup", EmptyString); ("X-dpagentid", Name a)]%string
  /\ Postit idle Unmarshal c b url true
     = (Do (newRequest c b url a) :: status_log (StatusCode resp)
          ++ map (λ command, launch command (RAgent response)) (Commands response)
          ++ [BodyClose],
        Returned (), c).
Proof.
  intros c. split; [reflexivity|].
  rewrite (Postit_analyse idle Unmarshal c b url a resp body response)
    by (try assumption; reflexivity).
  rewrite dispatch_idle. simpl. rewrite set_RunningCommands_same.
  assert (Hall : forall l : list Command,
            filter (λ command, default false ((∅ : gmap Z bool) !! Id command) = false) l
            = l).
  { induction l as [|x l IH]; [done|].
    rewrite filter_cons, decide_True by done. by rewrite IH. }
  by rewrite Hall.
Qed.
End MoreClient3.

(** ** The further properties on concrete inputs *)

Lemma BeforeRequest_numeric_parent_witness :
  deferstats.BeforeRequest (RT:=samples.string_runtime)
    5 99 ([] : list samples_http.call) (samples_http.request_with ["-17"%string])
  = Returned (5,
              {| deferstats.w := []; deferstats.status := 0; deferstats.size := 0;
                 deferstats.TSpanId := 99; deferstats.TParentSpanId := -17 |},
              {[ "X-Dpparentspanid"%string := "-17"%string;
                 "Accept"%string := "text/html,text/plain"%string ]}).
Proof.
  exact (BeforeRequest_numeric_parent
           (RT:=samples.string_runtime) 5 99 ([] : list samples_http.call)
           (samples_http.request_with ["-17"%string]) "-17" [] eq_refl eq_refl).
Defined.

Lemma span_id_round_trip_witness :
  exists tracer headers,
    deferstats.BeforeRequest (RT:=samples.string_runtime)
      5 100 ([] : list samples_http.call) (samples_http.request_with ["99"%string])
    = Returned (5, tracer, headers)
    /\ deferstats.TParentSpanId tracer = 99.
Proof.
  exact (span_id_round_trip (RT:=samples.string_runtime)
           5 100 ([] : list samples_http.call) (samples_http.request_with ["99"%string])
           {| deferstats.w := []; deferstats.status := 200; deferstats.size := 7;
              deferstats.TSpanId := 99; deferstats.TParentSpanId := 0 |}
           "99" [] ltac:(vm_compute; split; discriminate) eq_refl eq_refl).
Defined.

Lemma ResponseTracer_size_is_sum_witness :
  deferstats.Size
    (deferstats.ServeHTTP (RW:=samples_http.recorder)
       (samples_http.answering samples_http.request_plain)
       (deferstats.newTracer [])).2 = 7.
Proof.
  destruct (ResponseTracer_size_is_sum (RW:=samples_http.recorder)
              (samples_http.answering samples_http.request_plain)
              (deferstats.newTracer [])
              ltac:(vm_compute; split; discriminate)) as [_ H].
  apply H. vm_compute. split; discriminate.
Defined.

Lemma HTTPHandler_transparent_witness :
  exists g',
    deferstats.HTTPHandler (RW:=samples_http.recorder) (RT:=samples.string_runtime)
      samples.client0 deferstats.WritePanicResponse samples_http.panicking
      samples_http.fast samples_http.globals0 [] samples_http.request_plain
    = Returned (g',
                [samples_http.CallWrite "partial"; samples_http.CallWriteHeader 500;
                 samples_http.CallWrite "boom"],
                [deferclient.Go (deferclient.ShipTraceTask "main.go:10" "boom" 99)])
    /\ deferstats.rpms g' = [500].
Proof.
  destruct (HTTPHandler_transparent (RW:=samples_http.recorder)
              (RT:=samples.string_runtime) samples.client0 samples_http.panicking
              samples_http.fast samples_http.globals0 [] samples_http.request_plain
              ltac:(vm_compute; discriminate)) as (g' & H1 & H2 & _).
  exists g'. split; [exact H1|exact H2].
Defined.

Lemma HTTPHandler_header_panic_escapes_witness :
  deferstats.HTTPHandler (RW:=samples_http.recorder) (RT:=samples.string_runtime)
    samples.client0 deferstats.WritePanicResponse samples_http.answering
    samples_http.fast samples_http.globals0 [] (samples_http.request_with [])
  = Panicked "runtime error: index out of range [0] with length 0"%string.
Proof.
  exact (HTTPHandler_header_panic_escapes (RW:=samples_http.recorder)
           (RT:=samples.string_runtime) samples.client0
           deferstats.WritePanicResponse samples_http.answering samples_http.fast
           samples_http.globals0 [] (samples_http.request_with []) eq_refl).
Defined.

(** 500.999999 ms against a threshold of 500: not recorded. *)
Lemma appendHTTP_whole_milliseconds_witness :
  deferstats.curlist
    (deferstats.appendHTTP samples_http.globals0 (1000 + 500999999) 1000
       "/orders" "GET" 200 99 0 false ∅)
  = [].
Proof.
  destruct (appendHTTP_whole_milliseconds samples_http.globals0
              (1000 + 500999999) 1000 "/orders" "GET" 200 99 0 ∅
              ltac:(vm_compute; discriminate)) as [_ H].
  apply H. vm_compute. reflexivity.
Defined.

Lemma Postit_transport_failure_witness :
  deferclient.Postit (RT:=samples.string_runtime) deferclient.idle
    samples.decode_twice samples.client_down "b" "u" true
  = ([deferclient.Do (deferclient.newRequest samples.client_down "b" "u" samples.agent0);
      deferclient.Log "dial tcp: connection refused"],
     Returned (), samples.client_down).
Proof.
  exact (Postit_transport_failure (RT:=samples.string_runtime) deferclient.idle
           samples.decode_twice samples.client_down "b" "u" true samples.agent0
           "dial tcp: connection refused" eq_refl eq_refl eq_refl eq_refl).
Defined.

(** A client without an agent: [c.Agent.Name] dereferences nil. *)
Lemma Postit_request_not_built_witness :
  deferclient.Postit (RT:=samples.string_runtime) deferclient.idle
    samples.decode_twice samples.client_no_agent "b" "u" true
  = ([deferclient.Log
        (Sprintf_q (Runtime:=samples.string_runtime)
           (runtimeError (Runtime:=samples.string_runtime)
              "invalid memory address or nil pointer dereference"))],
     Returned (), samples.client_no_agent).
Proof.
  exact (Postit_request_not_built (RT:=samples.string_runtime) deferclient.idle
           samples.decode_twice samples.client_no_agent "b" "u" true eq_refl
           (or_intror eq_refl)).
Defined.

Lemma Postit_launches_from_reply_witness :
  (deferclient.launches_of 7
     (deferclient.Postit (RT:=samples.string_runtime) deferclient.idle
        samples.decode_twice samples.client0 "b" "u" true).1.1
   <= 2)%nat.
Proof.
  destruct (Postit_launches_from_reply (RT:=samples.string_runtime) deferclient.idle
              samples.decode_twice samples.client0 "b" "u" samples.agent0 _ "reply" _
              eq_refl eq_refl eq_refl eq_refl eq_refl eq_refl) as [_ H].
  exact (H 7).
Defined.

Lemma prep_sync_sends_async_spawns_witness :
  deferclient.sent_bodies
    (deferclient.PrepSync (RT:=samples.string_runtime) deferclient.idle
       samples.decode_fails samples.client0 "stack" "main.go:10" "boom"%string 0).1
  = [samples.render
       (deferclient.DeferJSON_fields (deferclient.report "main.go:10" "boom" 0))].
Proof.
  destruct (prep_sync_sends_async_spawns (RT:=samples.string_runtime)
              deferclient.idle samples.decode_fails samples.client0 "stack"
              "main.go:10" "boom"%string 0 samples.agent0 eq_refl eq_refl eq_refl)
    as (_ & H & _).
  exact H.
Defined.

Lemma fresh_client_dispatches_all_witness :
  deferclient.launches_of 7
    (deferclient.Postit (RT:=samples.string_runtime) deferclient.idle
       samples.decode_twice
       (deferclient.NewDeferPanicClient "token" samples.agent0 samples.collector)
       "b" "u" true).1.1
  = 2%nat.
Proof.
  destruct (fresh_client_dispatches_all (RT:=samples.string_runtime)
              samples.decode_twice "token" "b" "u" samples.agent0 samples.collector
              _ "reply" _ eq_refl eq_refl eq_refl eq_refl) as [_ H].
  rewrite H. reflexivity.
Defined.
